(** * FreeCAD FEM: typed attribute stores, result migration, equation defaults

    A shallow embedding of
    - [src/Mod/Fem/femobjects/result_mechanical.py]
      (class [ResultMechanical]: [__init__], [onDocumentRestored]) and
    - [src/Mod/Fem/femsolver/elmer/equations/magnetodynamic.py]
      (class [Proxy]: [__init__]) and
    - [src/Mod/Fem/femobjects/constraint_initialflowvelocity.py]
      (class [ConstraintInitialFlowVelocity]: [__init__]).

    The Python methods mutate a host document object [obj].  They are
    embedded as computations of a state-and-exception monad over the
    attribute store of [obj]: a raised exception aborts the method and
    leaves the store as it was at the raising statement, as in Python. *)

From Stdlib Require Import ZArith PrimFloat SpecFloat FloatOps.
From stdpp Require Import gmap strings list fin_maps sorting.

Open Scope Z_scope.

#[local] Set Warnings "-register-all".

(** ** Python values *)

(** The runtime values the two classes handle: strings, integers, booleans,
    floats, vectors and (heterogeneous) lists. *)
Inductive value : Type :=
| VStr (s : string)
| VInt (z : Z)
| VBool (b : bool)
| VFloat (x : float)
| VVector (x y z : float)
| VList (l : list value).

(** Exceptions.  The first five are the error taxonomy of the attribute
    layer; [TypeError] and [IndexError] are raised by the Python built-ins
    [len] and [del]. *)
Inductive error : Type :=
| DuplicateAttributeError
| UnknownAttributeError
| TypeMismatchError
| ReadOnlyViolationError
| CorruptMigrationStateError
| TypeError
| IndexError.

(** [float(z)] for a Python integer: round to nearest even on 53 bits;
    Python raises [OverflowError] where the result is not finite. *)
Definition float_of_int (z : Z) : option float :=
  let x := SF2Prim (binary_normalize prec emax z 0 false) in
  if PrimFloat.is_infinity x then None else Some x.

(** [len(v)] *)
Definition py_len (v : value) : error + Z :=
  match v with
  | VList l => inr (Z.of_nat (length l))
  | VStr s => inr (Z.of_nat (String.length s))
  | _ => inl TypeError
  end.

(** Removal of the element at position [n] of a list. *)
Fixpoint remove_nth {A : Type} (n : nat) (l : list A) : list A :=
  match l, n with
  | [], _ => []
  | _ :: l', O => l'
  | a :: l', S n' => a :: remove_nth n' l'
  end.

(** [del v[i]]: a negative index counts from the end; an index out of range
    raises [IndexError]; only lists support item deletion. *)
Definition py_delitem (v : value) (i : Z) : error + value :=
  match v with
  | VList l =>
      let n := Z.of_nat (length l) in
      if (0 <=? i) && (i <? n) then inr (VList (remove_nth (Z.to_nat i) l))
      else if (- n <=? i) && (i <? 0) then inr (VList (remove_nth (Z.to_nat (n + i)) l))
      else inl IndexError
  | _ => inl TypeError
  end.

(** [n * [v]] *)
Definition py_list_repeat (n : Z) (v : value) : value :=
  VList (repeat v (Z.to_nat n)).

(** [range(start, stop, step)] for a non-zero [step]. *)
Definition py_range (start stop step : Z) : list Z :=
  let count :=
    if 0 <? step then (stop - start + step - 1) / step
    else (start - stop - step - 1) / (- step) in
  (fun k : nat => start + Z.of_nat k * step) <$> seq 0 (Z.to_nat count).

(** ** The attribute store of a document object *)

(** The property types the two classes declare ([App::PropertyString], ...). *)
Inductive semanticType : Type :=
| PropertyString
| PropertyInteger
| PropertyFloat
| PropertyBool
| PropertyFloatList
| PropertyVectorList
| PropertyFrequency.

(** One declared attribute: its descriptor and its current value. *)
Record property : Type := Property {
  prop_type : semanticType;
  prop_group : string;
  prop_doc : string;
  prop_readOnly : bool;
  prop_hidden : bool;
  prop_locked : bool;
  prop_value : value
}.

Definition with_value (p : property) (v : value) : property :=
  Property (prop_type p) (prop_group p) (prop_doc p)
           (prop_readOnly p) (prop_hidden p) (prop_locked p) v.

Definition with_locked (p : property) (b : bool) : property :=
  Property (prop_type p) (prop_group p) (prop_doc p)
           (prop_readOnly p) (prop_hidden p) b (prop_value p).

(** The store maps attribute names to properties. *)
Abbreviation store := (gmap string property).

(** ** The monad of methods on [obj] *)

Definition M (A : Type) : Type := store -> store * (error + A).

#[global] Instance M_ret : MRet M := fun A (a : A) obj => (obj, inr a).

#[global] Instance M_bind : MBind M := fun A B (k : A -> M B) (m : M A) obj =>
  match m obj with
  | (obj', inr a) => k a obj'
  | (obj', inl e) => (obj', inl e)
  end.

(** A pure, fallible step (a built-in applied to local values). *)
Definition lift {A : Type} (r : error + A) : M A := fun obj => (obj, r).

(** [for x in xs: s = body(x, s)] over a local variable [s]. *)
Fixpoint for_each {A S : Type} (xs : list A) (body : A -> S -> M S) (s : S) : M S :=
  match xs with
  | [] => mret s
  | x :: xs' => s' ← body x s; for_each xs' body s'
  end.

(** The store a method leaves behind, and its outcome. *)
Definition exec {A : Type} (m : M A) (obj : store) : store := fst (m obj).
Definition outcome {A : Type} (m : M A) (obj : store) : error + A := snd (m obj).

(** ** Host primitives *)

(** Modelled from the spec: the host document object is not part of the
    sources.  A freshly declared attribute holds the default of its type. *)
Definition default_value (ty : semanticType) : value :=
  match ty with
  | PropertyString => VStr ""
  | PropertyInteger => VInt 0
  | PropertyFloat => VFloat 0%float
  | PropertyBool => VBool false
  | PropertyFloatList => VList []
  | PropertyVectorList => VList []
  | PropertyFrequency => VFloat 0%float
  end.

Definition to_float (v : value) : option float :=
  match v with
  | VFloat x => Some x
  | VInt z => float_of_int z
  | _ => None
  end.

Definition to_vector (v : value) : option value :=
  match v with
  | VVector x y z => Some (VVector x y z)
  | _ => None
  end.

(** Modelled from the spec: the type check of a write.  [convert ty v] is
    the value stored when [v] is written to an attribute of type [ty], and
    [None] when [v] is outside the domain of [ty] (numbers are accepted as
    floats if they have a finite float, a frequency is not negative). *)
Definition convert (ty : semanticType) (v : value) : option value :=
  match ty, v with
  | PropertyString, VStr s => Some (VStr s)
  | PropertyInteger, VInt z => Some (VInt z)
  | PropertyBool, VBool b => Some (VBool b)
  | PropertyFloat, _ => VFloat <$> to_float v
  | PropertyFrequency, _ =>
      x ← to_float v; if (0 <=? x)%float then Some (VFloat x) else None
  | PropertyFloatList, VList l => VList <$> mapM (fun e => VFloat <$> to_float e) l
  | PropertyVectorList, VList l => VList <$> mapM to_vector l
  | _, _ => None
  end.

(** Modelled from the spec: [obj.addLockedProperty(type, name, group, doc,
    readOnly=False, hidden=False)], the declaration interface.  Declaring a
    name twice fails with [DuplicateAttributeError]. *)
Definition addLockedProperty (ty : semanticType) (name group doc : string)
    (readOnly hidden : bool) : M unit := fun obj =>
  match obj !! name with
  | Some _ => (obj, inl DuplicateAttributeError)
  | None =>
      (<[name := Property ty group doc readOnly hidden true (default_value ty)]> obj,
       inr tt)
  end.

(** Modelled from the spec: [hasattr(obj, name)], the presence test on the
    attribute store of the host object. *)
Definition hasattr (name : string) : M bool := fun obj =>
  (obj, inr (bool_decide (is_Some (obj !! name)))).

(** Modelled from the spec: [obj.name], the read of an attribute; fails
    with [UnknownAttributeError] if absent. *)
Definition getattr (name : string) : M value := fun obj =>
  match obj !! name with
  | Some p => (obj, inr (prop_value p))
  | None => (obj, inl UnknownAttributeError)
  end.

(** Modelled from the spec: [obj.name = v] inside a constructor or the
    restore hook, the privileged write path: type-checked, not subject to
    the read-only flag. *)
Definition setattr (name : string) (v : value) : M unit := fun obj =>
  match obj !! name with
  | None => (obj, inl UnknownAttributeError)
  | Some p =>
      match convert (prop_type p) v with
      | None => (obj, inl TypeMismatchError)
      | Some v' => (<[name := with_value p v']> obj, inr tt)
      end
  end.

(** Modelled from the spec: [set(name, v)], the ordinary external write.
    A read-only attribute refuses it whatever the value. *)
Definition set (name : string) (v : value) : M unit := fun obj =>
  match obj !! name with
  | None => (obj, inl UnknownAttributeError)
  | Some p =>
      if prop_readOnly p then (obj, inl ReadOnlyViolationError)
      else match convert (prop_type p) v with
           | None => (obj, inl TypeMismatchError)
           | Some v' => (<[name := with_value p v']> obj, inr tt)
           end
  end.

(** Modelled from the spec: [obj.setPropertyStatus(name, status)], a host
    primitive that is not part of the sources.  The spec names no status
    words: only the dynamic lock that [addLockedProperty] sets is tracked,
    and an absent name fails like every access to it. *)
Definition setPropertyStatus (name status : string) : M unit := fun obj =>
  match obj !! name with
  | None => (obj, inl UnknownAttributeError)
  | Some p =>
      if String.eqb status "-LockDynamic" then (<[name := with_locked p false]> obj, inr tt)
      else if String.eqb status "LockDynamic" then (<[name := with_locked p true]> obj, inr tt)
      else (obj, inr tt)
  end.

(** Modelled from the spec: [obj.removeProperty(name)] deletes the key;
    fails with [UnknownAttributeError] if absent. *)
Definition removeProperty (name : string) : M unit := fun obj =>
  match obj !! name with
  | None => (obj, inl UnknownAttributeError)
  | Some _ => (delete name obj, inr tt)
  end.

(** ** result_mechanical.py *)

Module ResultMechanical.

Definition Type_ : string := "Fem::ResultMechanical".

(** [__init__(self, obj)].  The base class [BaseFemPythonObject] is not part
    of the sources: [super().__init__(obj)] is the parameter [super_init]. *)
Definition __init__ (super_init : M unit) : M unit :=
    super_init;;
    addLockedProperty PropertyString "ResultType" "Base" "Type of the result" true false;;
    setattr "ResultType" (VStr Type_);;
    addLockedProperty PropertyInteger "Eigenmode" "Data" "" true false;;
    addLockedProperty PropertyFloat "EigenmodeFrequency" "Data" "User Defined Results" true false;;
    addLockedProperty PropertyVectorList "DisplacementVectors" "NodeData" "List of displacement vectors" true false;;
    addLockedProperty PropertyFloatList "Peeq" "NodeData" "List of equivalent plastic strain values" true false;;
    addLockedProperty PropertyFloatList "MohrCoulomb" "NodeData" "List of Mohr Coulomb stress values" true false;;
    addLockedProperty PropertyFloatList "ReinforcementRatio_x" "NodeData" "Reinforcement ratio x-direction" true false;;
    addLockedProperty PropertyFloatList "ReinforcementRatio_y" "NodeData" "Reinforcement ratio y-direction" true false;;
    addLockedProperty PropertyFloatList "ReinforcementRatio_z" "NodeData" "Reinforcement ratio z-direction" true false;;
    addLockedProperty PropertyVectorList "PS1Vector" "NodeData" "List of 1st Principal Stress Vectors" true false;;
    addLockedProperty PropertyVectorList "PS2Vector" "NodeData" "List of 2nd Principal Stress Vectors" true false;;
    addLockedProperty PropertyVectorList "PS3Vector" "NodeData" "List of 3rd Principal Stress Vectors" true false;;
    addLockedProperty PropertyFloatList "DisplacementLengths" "NodeData" "List of displacement lengths" true false;;
    addLockedProperty PropertyFloatList "vonMises" "NodeData" "List of von Mises equivalent stresses" true false;;
    addLockedProperty PropertyFloatList "PrincipalMax" "NodeData" "" true false;;
    addLockedProperty PropertyFloatList "PrincipalMed" "NodeData" "" true false;;
    addLockedProperty PropertyFloatList "PrincipalMin" "NodeData" "" true false;;
    addLockedProperty PropertyFloatList "MaxShear" "NodeData" "List of Maximum Shear stress values" true false;;
    addLockedProperty PropertyFloatList "MassFlowRate" "NodeData" "List of mass flow rate values" true false;;
    addLockedProperty PropertyFloatList "NetworkPressure" "NodeData" "List of network pressure values" true false;;
    addLockedProperty PropertyFloatList "UserDefined" "NodeData" "User Defined Results" true false;;
    addLockedProperty PropertyFloatList "Temperature" "NodeData" "Temperature field" true false;;
    addLockedProperty PropertyVectorList "HeatFlux" "NodeData" "List of heat flux vectors" true false;;
    addLockedProperty PropertyFloatList "NodeStressXX" "NodeData" "" true false;;
    addLockedProperty PropertyFloatList "NodeStressYY" "NodeData" "" true false;;
    addLockedProperty PropertyFloatList "NodeStressZZ" "NodeData" "" true false;;
    addLockedProperty PropertyFloatList "NodeStressXY" "NodeData" "" true false;;
    addLockedProperty PropertyFloatList "NodeStressXZ" "NodeData" "" true false;;
    addLockedProperty PropertyFloatList "NodeStressYZ" "NodeData" "" true false;;
    addLockedProperty PropertyFloatList "NodeStrainXX" "NodeData" "" true false;;
    addLockedProperty PropertyFloatList "NodeStrainYY" "NodeData" "" true false;;
    addLockedProperty PropertyFloatList "NodeStrainZZ" "NodeData" "" true false;;
    addLockedProperty PropertyFloatList "NodeStrainXY" "NodeData" "" true false;;
    addLockedProperty PropertyFloatList "NodeStrainXZ" "NodeData" "" true false;;
    addLockedProperty PropertyFloatList "NodeStrainYZ" "NodeData" "" true false;;
    addLockedProperty PropertyFloatList "CriticalStrainRatio" "NodeData" "" true false;;
    let zero_list := py_list_repeat 26 (VInt 0) in
    setattr "Stats" zero_list.

(** First block of [onDocumentRestored]: property [StressValues] was renamed
    to [vonMises]. *)
Definition rename_rule : M unit :=
  b ← hasattr "StressValues";
  if (b : bool) return M unit then
    addLockedProperty PropertyFloatList "vonMises" "NodeData"
      "List of von Mises equivalent stresses" true false;;
    v ← getattr "StressValues";
    setattr "vonMises" v;;
    setPropertyStatus "StressValues" "-LockDynamic";;
    removeProperty "StressValues"
  else mret tt.

(** Second block of [onDocumentRestored]: property [Stats] consisting of
    min, avg, max values was reduced to min, max. *)
Definition stats_rule : M unit :=
  s ← getattr "Stats";
  n ← lift (py_len s);
  if (n =? 39) return M unit then
    temp ← getattr "Stats";
    temp ← for_each (py_range 12 (-1) (-1))
             (fun i temp => lift (py_delitem temp (3 * i + 1))) temp;
    setattr "Stats" temp
  else mret tt.

(** [onDocumentRestored(self, obj)] *)
Definition onDocumentRestored : M unit :=
  rename_rule;;
  stats_rule.

(** The two blocks in the opposite order (for the order-independence
    property; not a function of the source). *)
Definition onDocumentRestored_swapped : M unit :=
  stats_rule;;
  rename_rule.

(** The names [__init__] declares, in the order of declaration. *)
Definition declared_names : list string :=
  ["ResultType"; "Eigenmode"; "EigenmodeFrequency"; "DisplacementVectors";
   "Peeq"; "MohrCoulomb"; "ReinforcementRatio_x"; "ReinforcementRatio_y";
   "ReinforcementRatio_z"; "PS1Vector"; "PS2Vector"; "PS3Vector";
   "DisplacementLengths"; "vonMises"; "PrincipalMax"; "PrincipalMed";
   "PrincipalMin"; "MaxShear"; "MassFlowRate"; "NetworkPressure";
   "UserDefined"; "Temperature"; "HeatFlux"; "NodeStressXX"; "NodeStressYY";
   "NodeStressZZ"; "NodeStressXY"; "NodeStressXZ"; "NodeStressYZ";
   "NodeStrainXX"; "NodeStrainYY"; "NodeStrainZZ"; "NodeStrainXY";
   "NodeStrainXZ"; "NodeStrainYZ"; "CriticalStrainRatio"].

End ResultMechanical.

(** ** magnetodynamic.py *)

Module Proxy.

Definition Type_ : string := "Fem::EquationElmerMagnetodynamic".

(** [__init__(self, obj)].  The base classes [nonlinear.Proxy] and
    [equationbase.MagnetodynamicProxy] are not part of the sources:
    [super().__init__(obj)] is the parameter [super_init]. *)
Definition __init__ (super_init : M unit) : M unit :=
    super_init;;
    addLockedProperty PropertyBool "IsHarmonic" "Magnetodynamic" "If the magnetic source is harmonically driven" false false;;
    addLockedProperty PropertyFrequency "AngularFrequency" "Magnetodynamic" "Frequency of the driving current" false false;;
    addLockedProperty PropertyBool "UsePiolaTransform" "Magnetodynamic" "Must be True if basis functions for edge element interpolation
are selected to be members of optimal edge element family
or if second-order approximation is used." false false;;
    addLockedProperty PropertyBool "QuadraticApproximation" "Magnetodynamic" "Enables second-order approximation of driving current" false false;;
    addLockedProperty PropertyBool "StaticConductivity" "Magnetodynamic" "See Elmer models manual for info" false false;;
    addLockedProperty PropertyBool "FixInputCurrentDensity" "Magnetodynamic" "Ensures divergence-freeness of current density" false false;;
    addLockedProperty PropertyBool "AutomatedSourceProjectionBCs" "Magnetodynamic" "See Elmer models manual for info" false false;;
    addLockedProperty PropertyBool "UseLagrangeGauge" "Magnetodynamic" "See Elmer models manual for info" false false;;
    addLockedProperty PropertyFloat "LagrangeGaugePenalizationCoefficient" "Magnetodynamic" "See Elmer models manual for info" false false;;
    addLockedProperty PropertyBool "UseTreeGauge" "Magnetodynamic" "See Elmer models manual for info
Will be ignored if 'UsePiolaTransform' is True" false false;;
    addLockedProperty PropertyBool "LinearSystemRefactorize" "Linear System" "" false false;;
    setattr "IsHarmonic" (VBool false);;
    setattr "AngularFrequency" (VInt 0);;
    setattr "Priority" (VInt 10);;
    addLockedProperty PropertyBool "CalculateCurrentDensity" "Results" "" false false;;
    addLockedProperty PropertyBool "CalculateElectricField" "Results" "" false false;;
    addLockedProperty PropertyBool "CalculateElementalFields" "Results" "" false false;;
    addLockedProperty PropertyBool "CalculateHarmonicLoss" "Results" "" false false;;
    addLockedProperty PropertyBool "CalculateJouleHeating" "Results" "" false false;;
    addLockedProperty PropertyBool "CalculateMagneticFieldStrength" "Results" "" false false;;
    addLockedProperty PropertyBool "CalculateMaxwellStress" "Results" "" false false;;
    addLockedProperty PropertyBool "CalculateNodalFields" "Results" "" false false;;
    addLockedProperty PropertyBool "CalculateNodalForces" "Results" "" false false;;
    addLockedProperty PropertyBool "CalculateNodalHeating" "Results" "" false false;;
    addLockedProperty PropertyBool "DiscontinuousBodies" "Results" "" false false;;
    setattr "CalculateCurrentDensity" (VBool false);;
    setattr "CalculateElectricField" (VBool false);;
    setattr "CalculateElementalFields" (VBool false);;
    setattr "CalculateHarmonicLoss" (VBool false);;
    setattr "CalculateJouleHeating" (VBool false);;
    setattr "CalculateMagneticFieldStrength" (VBool false);;
    setattr "CalculateMaxwellStress" (VBool false);;
    setattr "CalculateNodalFields" (VBool true);;
    setattr "CalculateNodalForces" (VBool false);;
    setattr "CalculateNodalHeating" (VBool false);;
    setattr "DiscontinuousBodies" (VBool false).

(** The names [__init__] declares, in the order of declaration. *)
Definition declared_names : list string :=
  ["IsHarmonic"; "AngularFrequency"; "UsePiolaTransform";
   "QuadraticApproximation"; "StaticConductivity"; "FixInputCurrentDensity";
   "AutomatedSourceProjectionBCs"; "UseLagrangeGauge";
   "LagrangeGaugePenalizationCoefficient"; "UseTreeGauge";
   "LinearSystemRefactorize"; "CalculateCurrentDensity";
   "CalculateElectricField"; "CalculateElementalFields";
   "CalculateHarmonicLoss"; "CalculateJouleHeating";
   "CalculateMagneticFieldStrength"; "CalculateMaxwellStress";
   "CalculateNodalFields"; "CalculateNodalForces"; "CalculateNodalHeating";
   "DiscontinuousBodies"].

(** The post processor options: the names declared in group [Results]. *)
Definition result_toggles : list string :=
  ["CalculateCurrentDensity"; "CalculateElectricField";
   "CalculateElementalFields"; "CalculateHarmonicLoss";
   "CalculateJouleHeating"; "CalculateMagneticFieldStrength";
   "CalculateMaxwellStress"; "CalculateNodalFields"; "CalculateNodalForces";
   "CalculateNodalHeating"; "DiscontinuousBodies"].

End Proxy.

(** ** constraint_initialflowvelocity.py *)

Module ConstraintInitialFlowVelocity.

Definition Type_ : string := "Fem::ConstraintInitialFlowVelocity".

(** [__init__(self, obj)].  The base class [BaseFemPythonObject] is not part
    of the sources: [super().__init__(obj)] is the parameter [super_init].
    [App::PropertyVelocity] is a quantity type of the host; the constructor
    declares attributes of this type and never writes them, so the type is
    the parameter [PropertyVelocity]. *)
Definition __init__ (PropertyVelocity : semanticType) (super_init : M unit) : M unit :=
    super_init;;
    addLockedProperty PropertyVelocity "VelocityX" "Parameter" "Velocity in x-direction" false false;;
    addLockedProperty PropertyString "VelocityXFormula" "Parameter" "Velocity formula in x-direction" false false;;
    addLockedProperty PropertyBool "VelocityXUnspecified" "Parameter" "Use velocity in x-direction" false false;;
    setattr "VelocityXUnspecified" (VBool true);;
    addLockedProperty PropertyBool "VelocityXHasFormula" "Parameter" "Use formula for velocity in x-direction" false false;;
    addLockedProperty PropertyVelocity "VelocityY" "Parameter" "Velocity in y-direction" false false;;
    addLockedProperty PropertyString "VelocityYFormula" "Parameter" "Velocity formula in y-direction" false false;;
    addLockedProperty PropertyBool "VelocityYUnspecified" "Parameter" "Use velocity in y-direction" false false;;
    setattr "VelocityYUnspecified" (VBool true);;
    addLockedProperty PropertyBool "VelocityYHasFormula" "Parameter" "Use formula for velocity in y-direction" false false;;
    addLockedProperty PropertyVelocity "VelocityZ" "Parameter" "Velocity in z-direction" false false;;
    addLockedProperty PropertyString "VelocityZFormula" "Parameter" "Velocity formula in z-direction" false false;;
    addLockedProperty PropertyBool "VelocityZUnspecified" "Parameter" "Use velocity in z-direction" false false;;
    setattr "VelocityZUnspecified" (VBool true);;
    addLockedProperty PropertyBool "VelocityZHasFormula" "Parameter" "Use formula for velocity in z-direction" false false.

(** The names [__init__] declares, in the order of declaration. *)
Definition declared_names : list string :=
  ["VelocityX"; "VelocityXFormula"; "VelocityXUnspecified";
   "VelocityXHasFormula"; "VelocityY"; "VelocityYFormula";
   "VelocityYUnspecified"; "VelocityYHasFormula"; "VelocityZ";
   "VelocityZFormula"; "VelocityZUnspecified"; "VelocityZHasFormula"].

End ConstraintInitialFlowVelocity.

(** ** Evaluation order of equations *)

(** Modelled from the spec: the solver writer that orders the equations of
    one solve is not part of the sources.  The order is ascending in the
    integer [Priority]; among equal priorities the equation declared first
    comes first.  [l] lists the equations in declaration order. *)
Fixpoint insert_by_priority {A : Type} (priority : A -> Z) (x : A) (l : list A) : list A :=
  match l with
  | [] => [x]
  | y :: l' =>
      if priority x <=? priority y then x :: y :: l'
      else y :: insert_by_priority priority x l'
  end.

Definition resolve_order {A : Type} (priority : A -> Z) (l : list A) : list A :=
  foldr (insert_by_priority priority) [] l.

(** The [Priority] attribute of an equation object (0 when it holds no
    integer). *)
Definition priority_of (obj : store) : Z :=
  match prop_value <$> obj !! "Priority" with
  | Some (VInt z) => z
  | _ => 0
  end.

(** ** The statistics list, in the words of the specification *)

(** A legacy list carries a (min, avg, max) triple per result quantity, the
    current list a (min, max) pair. *)
Definition legacy_stats (ts : list (float * float * float)) : list value :=
  ts ≫= fun '(mn, av, mx) => [VFloat mn; VFloat av; VFloat mx].

Definition current_stats (ts : list (float * float * float)) : list value :=
  ts ≫= fun '(mn, _, mx) => [VFloat mn; VFloat mx].

(** What the loop of [onDocumentRestored] computes on a list made of whole
    triples: the middle element of every triple is dropped. *)
Fixpoint drop_avg {A : Type} (l : list A) : list A :=
  match l with
  | a :: _ :: c :: l' => a :: c :: drop_avg l'
  | _ => l
  end.

(** Attribute reads used in the statements. *)
Definition value_of (name : string) (obj : store) : option value :=
  prop_value <$> obj !! name.

Definition stats_length (obj : store) : option nat :=
  match value_of "Stats" obj with
  | Some (VList l) => Some (length l)
  | _ => None
  end.

(** The [vonMises] attribute as [onDocumentRestored] declares it, holding
    [v], and the store after the rename of [StressValues]. *)
Definition vonMises_prop (v : value) : property :=
  Property PropertyFloatList "NodeData" "List of von Mises equivalent stresses"
           true false true v.

Definition renamed (obj : store) (v : value) : store :=
  delete "StressValues" (<["vonMises" := vonMises_prop v]> obj).

(** The legacy-shape predicates as [onDocumentRestored] evaluates them:
    [hasattr(obj, "StressValues")] and [len(obj.Stats) == 39]. *)
Definition rename_predicate (obj : store) : bool :=
  bool_decide (is_Some (obj !! "StressValues")).

Definition shape_predicate (obj : store) : bool :=
  match value_of "Stats" obj with
  | Some v => match py_len v with inr n => n =? 39 | inl _ => false end
  | None => false
  end.

(** ** Example objects *)

Definition float_of_nat (k : nat) : float :=
  SF2Prim (binary_normalize prec emax (Z.of_nat k) 0 false).

(** Thirteen (min, avg, max) triples, all thirty-nine numbers different. *)
Definition example_triples : list (float * float * float) :=
  (fun k => let x := float_of_nat k in (x, (x + 0.25)%float, (x + 0.5)%float))
    <$> seq 0 13.

Definition example_floats : list float :=
  example_triples ≫= fun '(mn, av, mx) => [mn; av; mx].

Definition stats_prop (v : value) : property :=
  Property PropertyFloatList "Data" "Statistics of the results" true false false v.

Definition stress_prop (v : value) : property :=
  Property PropertyFloatList "NodeData" "List of von Mises stress values"
           true false false v.

Definition example_stress : value := VList [VFloat 1.5; VFloat 2.5].

(** A result object persisted before both schema changes. *)
Definition legacy_obj : store :=
  <["StressValues" := stress_prop example_stress]>
    (<["Stats" := stats_prop (VList (legacy_stats example_triples))]> ∅).

(** A result object of the current schema. *)
Definition current_obj : store :=
  <["vonMises" := vonMises_prop example_stress]>
    (<["Stats" := stats_prop (VList (current_stats example_triples))]> ∅).

(** An object on which both [StressValues] and [vonMises] are declared
    (its [Stats] list still has 39 entries). *)
Definition both_obj : store :=
  <["StressValues" := stress_prop example_stress]>
    (<["vonMises" := vonMises_prop (VList [])]>
       (<["Stats" := stats_prop (VList (legacy_stats example_triples))]> ∅)).

(** A legacy object without [Stats]. *)
Definition no_stats_obj : store :=
  <["StressValues" := stress_prop example_stress]> ∅.

(** [lacks names obj]: none of [names] is declared in [obj]. *)
Definition lacks (names : list string) (obj : store) : Prop :=
  Forall (fun name => obj !! name = None) names.

(** [is_on name obj]: the boolean attribute [name] holds [True]. *)
Definition is_on (name : string) (obj : store) : bool :=
  match value_of name obj with
  | Some (VBool b) => b
  | _ => false
  end.

(** The host object of a result, as it reaches [ResultMechanical.__init__]:
    [Stats] is a property of the host type itself (example values for its
    group and documentation). *)
Definition fresh_result_obj : store := <["Stats" := stats_prop (VList [])]> ∅.

(** An example of a base-class initializer of an equation, for the
    examples below: it declares the integer [Priority]. *)
Definition example_equation_base : M unit :=
  addLockedProperty PropertyInteger "Priority" "Base" "" false false.

(** Example equations of one solve: an object with a label and a priority. *)
Definition example_equation (label : string) (priority : Z) : store :=
  <["Label" := Property PropertyString "Base" "" false false false (VStr label)]>
    (<["Priority" := Property PropertyInteger "Base" "" false false true (VInt priority)]> ∅).

(** The order on equations by priority. *)
Definition priority_le {A : Type} (priority : A -> Z) (x y : A) : Prop :=
  priority x <= priority y.

(** A legacy result object with one more attribute of the host. *)
Definition legacy_obj_time : store :=
  <["Time" := Property PropertyFloat "Data" "Time of analysis increment" false false false
                (VFloat 1.5)]> legacy_obj.

(** * Properties *)

(** ** The monad *)

Section monad_facts.
Context {A B : Type}.
Implicit Types (m : M A) (k : A -> M B) (obj : store).

Lemma bind_inr m k obj obj' a :
  m obj = (obj', inr a) -> (m ≫= k) obj = k a obj'.
Proof. intros H. unfold mbind, M_bind. by rewrite H. Qed.

Lemma bind_inl m k obj obj' e :
  m obj = (obj', inl e) -> (m ≫= k) obj = (obj', inl e).
Proof. intros H. unfold mbind, M_bind. by rewrite H. Qed.

Lemma bind_inv_inr m k obj obj'' b :
  (m ≫= k) obj = (obj'', inr b) ->
  exists obj' a, m obj = (obj', inr a) /\ k a obj' = (obj'', inr b).
Proof.
  unfold mbind, M_bind. destruct (m obj) as [obj' [e|a]]; [done|]. eauto.
Qed.
End monad_facts.

(** ** Host primitives *)

Section host_facts.
Implicit Types (obj : store) (name : string) (p : property) (v : value).

Lemma addLockedProperty_fresh ty name group doc ro hid obj :
  obj !! name = None ->
  addLockedProperty ty name group doc ro hid obj =
    (<[name := Property ty group doc ro hid true (default_value ty)]> obj, inr tt).
Proof. intros H. unfold addLockedProperty. by rewrite H. Qed.

Lemma addLockedProperty_dup ty name group doc ro hid obj :
  is_Some (obj !! name) ->
  addLockedProperty ty name group doc ro hid obj = (obj, inl DuplicateAttributeError).
Proof. intros [p H]. unfold addLockedProperty. by rewrite H. Qed.

Lemma hasattr_Some name obj p :
  obj !! name = Some p -> hasattr name obj = (obj, inr true).
Proof.
  intros H. unfold hasattr. rewrite bool_decide_eq_true_2; [done|]. by rewrite H.
Qed.

Lemma hasattr_None name obj :
  obj !! name = None -> hasattr name obj = (obj, inr false).
Proof.
  intros H. unfold hasattr. rewrite bool_decide_eq_false_2; [done|].
  rewrite H. by intros [? ?].
Qed.

Lemma getattr_Some name obj p :
  obj !! name = Some p -> getattr name obj = (obj, inr (prop_value p)).
Proof. intros H. unfold getattr. by rewrite H. Qed.

Lemma getattr_None name obj :
  obj !! name = None -> getattr name obj = (obj, inl UnknownAttributeError).
Proof. intros H. unfold getattr. by rewrite H. Qed.

Lemma setattr_ok name v v' obj p :
  obj !! name = Some p -> convert (prop_type p) v = Some v' ->
  setattr name v obj = (<[name := with_value p v']> obj, inr tt).
Proof. intros H Hc. unfold setattr. by rewrite H, Hc. Qed.

Lemma setattr_mismatch name v obj p :
  obj !! name = Some p -> convert (prop_type p) v = None ->
  setattr name v obj = (obj, inl TypeMismatchError).
Proof. intros H Hc. unfold setattr. by rewrite H, Hc. Qed.

Lemma set_readOnly name v obj p :
  obj !! name = Some p -> prop_readOnly p = true ->
  set name v obj = (obj, inl ReadOnlyViolationError).
Proof. intros H Hr. unfold set. by rewrite H, Hr. Qed.

Lemma removeProperty_Some name obj p :
  obj !! name = Some p -> removeProperty name obj = (delete name obj, inr tt).
Proof. intros H. unfold removeProperty. by rewrite H. Qed.
End host_facts.

(** ** The type check *)

Lemma mapM_to_float_VFloat (xs : list float) :
  mapM (fun e => VFloat <$> to_float e) (VFloat <$> xs) = Some (VFloat <$> xs).
Proof.
  apply mapM_Some. induction xs as [|x xs IH]; constructor; [done|exact IH].
Qed.

Lemma convert_float_list (xs : list float) :
  convert PropertyFloatList (VList (VFloat <$> xs)) = Some (VList (VFloat <$> xs)).
Proof. simpl. by rewrite mapM_to_float_VFloat. Qed.

Lemma convert_VList_length ty l v :
  convert ty (VList l) = Some v -> exists l', v = VList l' /\ length l' = length l.
Proof.
  destruct ty; simpl; try done.
  - destruct (mapM _ l) as [l'|] eqn:E; [|done]. intros [= <-].
    exists l'. split; [done|]. symmetry. by eapply length_mapM.
  - destruct (mapM _ l) as [l'|] eqn:E; [|done]. intros [= <-].
    exists l'. split; [done|]. symmetry. by eapply length_mapM.
Qed.

(** ** Lists: deletion by index and the dropped middle elements *)

Section list_facts.
Context {A : Type}.
Implicit Types (l pre suf : list A).

Lemma remove_nth_app pre j l :
  remove_nth (length pre + j) (pre ++ l) = pre ++ remove_nth j l.
Proof. induction pre as [|a pre IH]; simpl; [done|]. by rewrite IH. Qed.

Lemma drop_avg_app (k : nat) : forall pre l,
  length pre = (3 * k)%nat -> drop_avg (pre ++ l) = drop_avg pre ++ drop_avg l.
Proof.
  induction k as [|k IH]; intros pre l Hlen.
  - by destruct pre.
  - destruct pre as [|a [|b [|c pre]]]; simpl in Hlen; try lia.
    simpl. rewrite IH; [done|lia].
Qed.

Lemma drop_avg_length (k : nat) : forall l,
  length l = (3 * k)%nat -> length (drop_avg l) = (2 * k)%nat.
Proof.
  induction k as [|k IH]; intros l Hlen.
  - by destruct l.
  - destruct l as [|a [|b [|c l]]]; simpl in Hlen; try lia.
    simpl. rewrite IH; lia.
Qed.

(** Position by position: pair [j] of the result is (min, max) of
    triple [j]. *)
Lemma drop_avg_lookup (j : nat) : forall l,
  (3 * j + 3 <= length l)%nat ->
  drop_avg l !! (2 * j)%nat = l !! (3 * j)%nat /\
  drop_avg l !! (2 * j + 1)%nat = l !! (3 * j + 2)%nat.
Proof.
  induction j as [|j IH]; intros l Hlen.
  - destruct l as [|a [|b [|c l]]]; simpl in Hlen; try lia. done.
  - destruct l as [|a [|b [|c l]]]; simpl in Hlen; try lia.
    replace (2 * S j)%nat with (S (S (2 * j))) by lia.
    replace (3 * S j)%nat with (S (S (S (3 * j)))) by lia.
    simpl. apply IH. lia.
Qed.
End list_facts.

Lemma legacy_stats_length ts : length (legacy_stats ts) = (3 * length ts)%nat.
Proof.
  unfold legacy_stats. induction ts as [|[[mn av] mx] ts IH]; [done|].
  cbn. cbn in IH. rewrite IH. lia.
Qed.

Lemma drop_avg_legacy_stats ts : drop_avg (legacy_stats ts) = current_stats ts.
Proof.
  unfold legacy_stats, current_stats.
  induction ts as [|[[mn av] mx] ts IH]; [done|]. cbn. cbn in IH. by rewrite IH.
Qed.

Lemma current_stats_floats ts : exists xs, current_stats ts = VFloat <$> xs.
Proof.
  unfold current_stats. induction ts as [|[[mn av] mx] ts [xs IH]].
  - by exists [].
  - exists (mn :: mx :: xs). cbn. cbn in IH. by rewrite IH.
Qed.

Lemma drop_avg_floats (xs : list float) : drop_avg (VFloat <$> xs) = VFloat <$> drop_avg xs.
Proof.
  assert (forall (n : nat) (l : list float), (length l <= n)%nat ->
            drop_avg (VFloat <$> l) = VFloat <$> drop_avg l) as H.
  { induction n as [|n IH]; intros [|a [|b [|c l]]] Hl; simpl in Hl; try done; try lia.
    cbn. rewrite IH; [done|lia]. }
  by apply (H (length xs)).
Qed.

(** ** The loop of the shape reduction *)

(** [range(j + k - 1, j - 1, -1)] counts down from [j + k - 1] to [j]. *)
Lemma py_range_down_nil (j : nat) :
  py_range (Z.of_nat j - 1) (Z.of_nat j - 1) (-1) = [].
Proof.
  unfold py_range. simpl.
  replace (Z.of_nat j - 1 - (Z.of_nat j - 1) - -1 - 1) with 0 by lia. done.
Qed.

Lemma py_range_down_cons (j k : nat) :
  py_range (Z.of_nat (j + S k) - 1) (Z.of_nat j - 1) (-1) =
    Z.of_nat (j + k) :: py_range (Z.of_nat (j + k) - 1) (Z.of_nat j - 1) (-1).
Proof.
  unfold py_range. change (0 <? -1) with false. cbv iota.
  replace (Z.of_nat (j + S k) - 1 - (Z.of_nat j - 1) - -1 - 1) with (Z.of_nat (S k)) by lia.
  replace (Z.of_nat (j + k) - 1 - (Z.of_nat j - 1) - -1 - 1) with (Z.of_nat k) by lia.
  change (- (-1)) with 1. rewrite !Z.div_1_r, !Nat2Z.id.
  cbn [seq fmap list_fmap]. f_equal; [lia|].
  rewrite <- fmap_S_seq, <- list_fmap_compose.
  apply list_fmap_ext. intros _ i _. simpl. lia.
Qed.

(** The loop invariant.  While the triples [j + k - 1], ..., [j] are being
    processed, the [3 * j] elements in front of them ([pre0]) keep their
    positions: a deletion only shifts elements behind it, and those have
    been processed already. *)
Lemma shape_loop (obj : store) (k : nat) : forall (j : nat) (pre0 pre suf : list value),
  length pre0 = (3 * j)%nat -> length pre = (3 * k)%nat ->
  for_each (py_range (Z.of_nat (j + k) - 1) (Z.of_nat j - 1) (-1))
    (fun i temp => lift (py_delitem temp (3 * i + 1))) (VList (pre0 ++ pre ++ suf)) obj
  = (obj, inr (VList (pre0 ++ drop_avg pre ++ suf))).
Proof.
  induction k as [|k IH]; intros j pre0 pre suf H0 Hk.
  - destruct pre; [|done]. rewrite Nat.add_0_r, py_range_down_nil. done.
  - rewrite py_range_down_cons. cbn [for_each].
    assert (exists pre' a b c, pre = pre' ++ [a; b; c] /\ length pre' = (3 * k)%nat)
      as (pre' & a & b & c & -> & Hk').
    { exists (take (3 * k) pre).
      pose proof (take_drop (3 * k) pre) as Htd.
      assert (length (take (3 * k) pre) = (3 * k)%nat) as Ht
        by (rewrite length_take; lia).
      assert (length (drop (3 * k) pre) = 3%nat) as Hd
        by (rewrite length_drop; lia).
      destruct (drop (3 * k) pre) as [|a [|b [|c [|]]]]; simpl in Hd; try lia.
      by exists a, b, c. }
    erewrite bind_inr; last first.
    { unfold lift, py_delitem.
      rewrite !length_app. cbn [length].
      rewrite (proj2 (andb_true_iff _ _)) by (split; [apply Z.leb_le|apply Z.ltb_lt]; lia).
      replace (Z.to_nat (3 * Z.of_nat (j + k) + 1)) with (length (pre0 ++ pre') + 1)%nat
        by (rewrite length_app; lia).
      replace (pre0 ++ (pre' ++ [a; b; c]) ++ suf)
        with ((pre0 ++ pre') ++ a :: b :: c :: suf) by (by rewrite <- !app_assoc).
      rewrite remove_nth_app. cbn [remove_nth]. done. }
    rewrite <- app_assoc.
    rewrite (IH j pre0 pre' (a :: c :: suf) H0 Hk').
    rewrite (drop_avg_app k pre' [a; b; c] Hk'). cbn [drop_avg].
    by rewrite <- !app_assoc.
Qed.

(** ** The two blocks of [onDocumentRestored], case by case *)

Section rules.
Import ResultMechanical.
Implicit Types (obj : store) (p : property).

Lemma rename_rule_absent obj :
  obj !! "StressValues" = None -> rename_rule obj = (obj, inr tt).
Proof.
  intros H. unfold rename_rule. by rewrite (bind_inr _ _ _ _ _ (hasattr_None _ _ H)).
Qed.

(** [vonMises] is declared unconditionally: on an object that already has
    it the declaration is refused and nothing is changed. *)
Lemma rename_rule_dup obj :
  is_Some (obj !! "StressValues") -> is_Some (obj !! "vonMises") ->
  rename_rule obj = (obj, inl DuplicateAttributeError).
Proof.
  intros [p H] Hv. unfold rename_rule.
  rewrite (bind_inr _ _ _ _ _ (hasattr_Some _ _ _ H)). cbv iota.
  by rewrite (bind_inl _ _ _ _ _ (addLockedProperty_dup _ _ _ _ _ _ _ Hv)).
Qed.

Lemma rename_rule_mismatch obj p :
  obj !! "StressValues" = Some p -> obj !! "vonMises" = None ->
  convert PropertyFloatList (prop_value p) = None ->
  rename_rule obj = (<["vonMises" := vonMises_prop (VList [])]> obj, inl TypeMismatchError).
Proof.
  intros H Hv Hc. unfold rename_rule.
  rewrite (bind_inr _ _ _ _ _ (hasattr_Some _ _ _ H)). cbv iota.
  rewrite (bind_inr _ _ _ _ _ (addLockedProperty_fresh _ _ _ _ _ _ _ Hv)).
  erewrite bind_inr; last by (apply getattr_Some; rewrite lookup_insert_ne).
  erewrite bind_inl; [done|].
  eapply setattr_mismatch; [apply lookup_insert_eq|done].
Qed.

Lemma rename_rule_ok obj p v :
  obj !! "StressValues" = Some p -> obj !! "vonMises" = None ->
  convert PropertyFloatList (prop_value p) = Some v ->
  rename_rule obj = (renamed obj v, inr tt).
Proof.
  intros H Hv Hc. unfold rename_rule.
  rewrite (bind_inr _ _ _ _ _ (hasattr_Some _ _ _ H)). cbv iota.
  rewrite (bind_inr _ _ _ _ _ (addLockedProperty_fresh _ _ _ _ _ _ _ Hv)).
  erewrite bind_inr; last by (apply getattr_Some; rewrite lookup_insert_ne).
  erewrite bind_inr; last by (eapply setattr_ok; [apply lookup_insert_eq|done]).
  rewrite insert_insert_eq.
  unfold setPropertyStatus at 1.
  erewrite bind_inr; last first.
  { unfold setPropertyStatus. rewrite lookup_insert_ne by done. rewrite H. done. }
  erewrite removeProperty_Some by apply lookup_insert_eq.
  by rewrite delete_insert_eq.
Qed.

(** What the rename block leaves of an attribute other than the two it
    is about. *)
Lemma rename_rule_frame obj name :
  name <> "StressValues" -> name <> "vonMises" ->
  exec rename_rule obj !! name = obj !! name.
Proof.
  intros N1 N2. unfold exec.
  destruct (obj !! "StressValues") as [p|] eqn:H.
  - destruct (obj !! "vonMises") as [q|] eqn:Hv.
    + by rewrite rename_rule_dup.
    + destruct (convert PropertyFloatList (prop_value p)) as [v|] eqn:Hc.
      * rewrite (rename_rule_ok _ _ _ H Hv Hc). unfold renamed. simpl.
        by rewrite lookup_delete_ne, lookup_insert_ne.
      * rewrite (rename_rule_mismatch _ _ H Hv Hc). simpl.
        by rewrite lookup_insert_ne.
  - by rewrite rename_rule_absent.
Qed.

Lemma stats_rule_absent obj :
  obj !! "Stats" = None -> stats_rule obj = (obj, inl UnknownAttributeError).
Proof.
  intros H. unfold stats_rule. by rewrite (bind_inl _ _ _ _ _ (getattr_None _ _ H)).
Qed.

Lemma stats_rule_len_error obj p e :
  obj !! "Stats" = Some p -> py_len (prop_value p) = inl e ->
  stats_rule obj = (obj, inl e).
Proof.
  intros H He. unfold stats_rule.
  rewrite (bind_inr _ _ _ _ _ (getattr_Some _ _ _ H)).
  erewrite bind_inl; [done|]. unfold lift. by rewrite He.
Qed.

Lemma stats_rule_other obj p n :
  obj !! "Stats" = Some p -> py_len (prop_value p) = inr n -> n <> 39 ->
  stats_rule obj = (obj, inr tt).
Proof.
  intros H Hn Hne. unfold stats_rule.
  rewrite (bind_inr _ _ _ _ _ (getattr_Some _ _ _ H)).
  erewrite bind_inr; last by (unfold lift; rewrite Hn).
  by rewrite (proj2 (Z.eqb_neq n 39) Hne).
Qed.

(** A string of 39 characters passes the length test; [del] refuses it. *)
Lemma stats_rule_str obj p s :
  obj !! "Stats" = Some p -> prop_value p = VStr s -> String.length s = 39%nat ->
  stats_rule obj = (obj, inl TypeError).
Proof.
  intros H Hs Hlen. unfold stats_rule.
  rewrite (bind_inr _ _ _ _ _ (getattr_Some _ _ _ H)).
  erewrite bind_inr; last by (unfold lift; rewrite Hs; simpl; rewrite Hlen).
  change (Z.of_nat 39 =? 39) with true. cbv iota.
  rewrite (bind_inr _ _ _ _ _ (getattr_Some _ _ _ H)). by rewrite Hs.
Qed.

(** On a list of 39 entries the loop runs to its end, and the block is the
    privileged write of the 26 entries that are left. *)
Lemma stats_rule_list obj p l :
  obj !! "Stats" = Some p -> prop_value p = VList l -> length l = 39%nat ->
  stats_rule obj = setattr "Stats" (VList (drop_avg l)) obj.
Proof.
  intros H Hl Hlen. unfold stats_rule.
  rewrite (bind_inr _ _ _ _ _ (getattr_Some _ _ _ H)).
  erewrite bind_inr; last by (unfold lift; rewrite Hl; simpl; rewrite Hlen).
  change (Z.of_nat 39 =? 39) with true. cbv iota.
  rewrite (bind_inr _ _ _ _ _ (getattr_Some _ _ _ H)). rewrite Hl.
  assert (for_each (py_range 12 (-1) (-1))
            (fun i temp => lift (py_delitem temp (3 * i + 1))) (VList l) obj
          = (obj, inr (VList (drop_avg l)))) as Hloop.
  { pose proof (shape_loop obj 13 0 [] l [] eq_refl Hlen) as Hloop.
    rewrite !app_nil_r in Hloop. exact Hloop. }
  by rewrite (bind_inr _ _ _ _ _ Hloop).
Qed.
End rules.

(** ** The shape-reduction block as a whole *)

Section stats_rule_facts.
Import ResultMechanical.
Implicit Types (obj : store) (p q : property).

(** The block either leaves the store as it is, or it found 39 entries and
    wrote back the 26 that are left. *)
Lemma stats_rule_cases obj :
  (exists r, stats_rule obj = (obj, r) /\
     (r = inr tt -> exists p n, obj !! "Stats" = Some p /\
                      py_len (prop_value p) = inr n /\ n <> 39)) \/
  (exists p l v, obj !! "Stats" = Some p /\ prop_value p = VList l /\
     length l = 39%nat /\ convert (prop_type p) (VList (drop_avg l)) = Some v /\
     stats_rule obj = (<["Stats" := with_value p v]> obj, inr tt)).
Proof.
  destruct (obj !! "Stats") as [p|] eqn:H.
  2:{ left. eexists. split; [by apply stats_rule_absent|done]. }
  destruct (py_len (prop_value p)) as [e|n] eqn:Hn.
  { left. eexists. split; [by eapply stats_rule_len_error|done]. }
  destruct (decide (n = 39)) as [->|Hne].
  2:{ left. eexists. split; [by eapply stats_rule_other|]. intros _. by exists p, n. }
  destruct (prop_value p) as [s| | | | |l] eqn:Hv; simpl in Hn; try done.
  - left. eexists. split; [eapply stats_rule_str; eauto; injection Hn; lia|done].
  - assert (length l = 39%nat) as Hlen by (injection Hn; lia).
    destruct (convert (prop_type p) (VList (drop_avg l))) as [v|] eqn:Hc.
    + right. exists p, l, v. repeat split; try done.
      rewrite (stats_rule_list _ _ _ H Hv Hlen). by eapply setattr_ok.
    + left. eexists.
      split; [rewrite (stats_rule_list _ _ _ H Hv Hlen); by eapply setattr_mismatch|done].
Qed.

Lemma stats_rule_frame obj name :
  name <> "Stats" -> exec stats_rule obj !! name = obj !! name.
Proof.
  intros N. unfold exec.
  destruct (stats_rule_cases obj) as [(r & -> & _)|(p & l & v & _ & _ & _ & _ & ->)];
    [done|]. simpl. by rewrite lookup_insert_ne.
Qed.

(** Where the block returns normally, the list it leaves does not have 39
    entries, and running the block again changes nothing. *)
Lemma stats_rule_done obj obj' :
  stats_rule obj = (obj', inr tt) ->
  shape_predicate obj' = false /\ stats_rule obj' = (obj', inr tt).
Proof.
  intros Hrun.
  assert (exists p n, obj' !! "Stats" = Some p /\
            py_len (prop_value p) = inr n /\ n <> 39) as (p & n & H & Hn & Hne).
  { destruct (stats_rule_cases obj) as [(r & E & Hr)|(p & l & v & H & Hl & Hlen & Hc & E)];
      rewrite E in Hrun; simplify_eq.
    - by apply Hr.
    - destruct (convert_VList_length _ _ _ Hc) as (l' & -> & Hl').
      exists (with_value p (VList l')), (Z.of_nat (length l')).
      rewrite lookup_insert_eq. split; [done|]. split; [done|].
      rewrite Hl', (drop_avg_length 13 l Hlen). done. }
  split.
  - unfold shape_predicate, value_of. rewrite H. simpl. rewrite Hn.
    by apply Z.eqb_neq.
  - by eapply stats_rule_other.
Qed.

Lemma stats_rule_idem obj :
  exec stats_rule (exec stats_rule obj) = exec stats_rule obj.
Proof.
  unfold exec.
  destruct (stats_rule obj) as [obj' [e|[]]] eqn:E; simpl.
  - destruct (stats_rule_cases obj) as [(r & E' & _)|(p & l & v & _ & _ & _ & _ & E')];
      rewrite E' in E; [|done]. simplify_eq. by rewrite E'.
  - by rewrite (proj2 (stats_rule_done _ _ E)).
Qed.

(** The block looks at [Stats] only: on two stores that agree there, it
    does the same thing. *)
Lemma stats_rule_local obj1 obj2 :
  obj1 !! "Stats" = obj2 !! "Stats" ->
  (exists r, stats_rule obj1 = (obj1, r) /\ stats_rule obj2 = (obj2, r)) \/
  (exists q, stats_rule obj1 = (<["Stats" := q]> obj1, inr tt) /\
             stats_rule obj2 = (<["Stats" := q]> obj2, inr tt)).
Proof.
  intros Heq.
  destruct (obj1 !! "Stats") as [p|] eqn:H1; symmetry in Heq.
  2:{ left. eexists. split; by apply stats_rule_absent. }
  destruct (py_len (prop_value p)) as [e|n] eqn:Hn.
  { left. eexists. split; by eapply stats_rule_len_error. }
  destruct (decide (n = 39)) as [->|Hne].
  2:{ left. eexists. split; by eapply stats_rule_other. }
  destruct (prop_value p) as [s| | | | |l] eqn:Hv; simpl in Hn; try done.
  - left. eexists. split; (eapply stats_rule_str; eauto; injection Hn; lia).
  - assert (length l = 39%nat) as Hlen by (injection Hn; lia).
    rewrite (stats_rule_list _ _ _ H1 Hv Hlen), (stats_rule_list _ _ _ Heq Hv Hlen).
    destruct (convert (prop_type p) (VList (drop_avg l))) as [v|] eqn:Hc.
    + right. eexists. split; by eapply setattr_ok.
    + left. eexists. split; by eapply setattr_mismatch.
Qed.
End stats_rule_facts.

(** ** The rename block and the pass as a whole *)

Section pass_facts.
Import ResultMechanical.
Implicit Types (obj : store) (p q : property).

Lemma rename_rule_cases obj :
  (obj !! "StressValues" = None /\ rename_rule obj = (obj, inr tt)) \/
  (is_Some (obj !! "StressValues") /\ is_Some (obj !! "vonMises") /\
     rename_rule obj = (obj, inl DuplicateAttributeError)) \/
  (exists p, obj !! "StressValues" = Some p /\ obj !! "vonMises" = None /\
     rename_rule obj =
       (<["vonMises" := vonMises_prop (VList [])]> obj, inl TypeMismatchError)) \/
  (exists p v, obj !! "StressValues" = Some p /\ obj !! "vonMises" = None /\
     convert PropertyFloatList (prop_value p) = Some v /\
     rename_rule obj = (renamed obj v, inr tt)).
Proof.
  destruct (obj !! "StressValues") as [p|] eqn:H.
  2:{ left. split; [done|by apply rename_rule_absent]. }
  right. destruct (obj !! "vonMises") as [q|] eqn:Hv.
  { left. repeat split; [by eexists|by eexists|]. apply rename_rule_dup; by rewrite ?H, ?Hv. }
  right. destruct (convert PropertyFloatList (prop_value p)) as [v|] eqn:Hc.
  - right. exists p, v. repeat split; [done|]. by apply rename_rule_ok with p.
  - left. exists p. repeat split. by apply rename_rule_mismatch with p.
Qed.

Lemma onDocumentRestored_unfold obj :
  onDocumentRestored obj =
    match rename_rule obj with
    | (obj', inr _) => stats_rule obj'
    | (obj', inl e) => (obj', inl e)
    end.
Proof. reflexivity. Qed.

Lemma onDocumentRestored_swapped_unfold obj :
  onDocumentRestored_swapped obj =
    match stats_rule obj with
    | (obj', inr _) => rename_rule obj'
    | (obj', inl e) => (obj', inl e)
    end.
Proof. reflexivity. Qed.

(** Where the rename block returns normally, [StressValues] is gone. *)
Lemma rename_rule_done obj obj' :
  rename_rule obj = (obj', inr tt) -> obj' !! "StressValues" = None.
Proof.
  intros Hrun.
  destruct (rename_rule_cases obj)
    as [[H E]|[(_ & _ & E)|[(p & _ & _ & E)|(p & v & _ & _ & _ & E)]]];
    rewrite E in Hrun; simplify_eq; [done|].
  unfold renamed. apply lookup_delete_eq.
Qed.

(** Where it raises, both names are present afterwards. *)
Lemma rename_rule_raised obj obj' e :
  rename_rule obj = (obj', inl e) ->
  is_Some (obj' !! "StressValues") /\ is_Some (obj' !! "vonMises").
Proof.
  intros Hrun.
  destruct (rename_rule_cases obj)
    as [[H E]|[(H1 & H2 & E)|[(p & H & _ & E)|(p & v & _ & _ & _ & E)]]];
    rewrite E in Hrun; simplify_eq; [done|].
  split; [by rewrite lookup_insert_ne, H|by rewrite lookup_insert_eq].
Qed.

(** The pass, on an object without [StressValues], is the second block. *)
Lemma onDocumentRestored_renamed obj :
  obj !! "StressValues" = None -> onDocumentRestored obj = stats_rule obj.
Proof.
  intros H. by rewrite onDocumentRestored_unfold, (rename_rule_absent _ H).
Qed.

(** A pass that returns normally leaves an object on which neither
    predicate holds and on which the pass returns normally again. *)
Lemma onDocumentRestored_done obj obj' :
  onDocumentRestored obj = (obj', inr tt) ->
  rename_predicate obj' = false /\ shape_predicate obj' = false /\
  onDocumentRestored obj' = (obj', inr tt).
Proof.
  rewrite onDocumentRestored_unfold.
  destruct (rename_rule obj) as [o [e|[]]] eqn:R; [done|]. intros S.
  pose proof (rename_rule_done _ _ R) as Ho.
  assert (obj' !! "StressValues" = None) as Ho'.
  { replace obj' with (exec stats_rule o) by (unfold exec; by rewrite S).
    by rewrite stats_rule_frame. }
  destruct (stats_rule_done _ _ S) as [Hs Hagain].
  split; [|split; [done|]].
  - unfold rename_predicate. apply bool_decide_eq_false_2. rewrite Ho'. by intros [? ?].
  - by rewrite onDocumentRestored_renamed.
Qed.
End pass_facts.

(** ** Migration of result objects *)

Section migration.
Import ResultMechanical.
Implicit Types (obj : store) (p q : property).

(** C1 (idempotence).  For every result object, running
    [onDocumentRestored] twice leaves the same attribute store as running
    it once.  After a pass that returns normally, [StressValues] is absent
    and [Stats] does not have 39 entries, and a second pass returns
    normally without any change. *)
Theorem migration_idempotent obj :
  exec onDocumentRestored (exec onDocumentRestored obj) = exec onDocumentRestored obj /\
  (outcome onDocumentRestored obj = inr tt ->
     rename_predicate (exec onDocumentRestored obj) = false /\
     shape_predicate (exec onDocumentRestored obj) = false /\
     onDocumentRestored (exec onDocumentRestored obj)
       = (exec onDocumentRestored obj, inr tt)).
Proof.
  split.
  { (* the store after two passes *)
    unfold exec at 2 3. rewrite (onDocumentRestored_unfold obj).
    destruct (rename_rule obj) as [o [e|[]]] eqn:R.
    - simpl. destruct (rename_rule_raised _ _ _ R) as [H1 H2].
      unfold exec. by rewrite onDocumentRestored_unfold, (rename_rule_dup _ H1 H2).
    - pose proof (rename_rule_done _ _ R) as Ho.
      change (fst (stats_rule o)) with (exec stats_rule o).
      unfold exec at 1. rewrite onDocumentRestored_renamed.
      + apply stats_rule_idem.
      + by rewrite stats_rule_frame.
  }
  unfold outcome, exec. destruct (onDocumentRestored obj) as [obj' r] eqn:E.
  simpl. intros ->. by apply onDocumentRestored_done with obj.
Qed.

Lemma migration_idempotent_witness :
  outcome onDocumentRestored legacy_obj = inr tt /\
  exec onDocumentRestored (exec onDocumentRestored legacy_obj)
    = exec onDocumentRestored legacy_obj /\
  rename_predicate (exec onDocumentRestored legacy_obj) = false /\
  shape_predicate (exec onDocumentRestored legacy_obj) = false /\
  onDocumentRestored (exec onDocumentRestored legacy_obj)
    = (exec onDocumentRestored legacy_obj, inr tt).
Proof.
  assert (outcome onDocumentRestored legacy_obj = inr tt) as H
    by (vm_compute; reflexivity).
  split; [exact H|].
  split; [exact (proj1 (migration_idempotent legacy_obj))|].
  exact (proj2 (migration_idempotent legacy_obj) H).
Defined.
(** The shape-reduction block on a legacy list of thirteen triples. *)
Lemma stats_rule_legacy obj p ts :
  obj !! "Stats" = Some p -> prop_type p = PropertyFloatList ->
  prop_value p = VList (legacy_stats ts) -> length ts = 13%nat ->
  stats_rule obj = (<["Stats" := with_value p (VList (current_stats ts))]> obj, inr tt).
Proof.
  intros H Hty Hv Hlen.
  assert (length (legacy_stats ts) = 39%nat) as Hl
    by (rewrite legacy_stats_length; lia).
  rewrite (stats_rule_list _ _ _ H Hv Hl), drop_avg_legacy_stats.
  eapply setattr_ok; [done|]. rewrite Hty.
  destruct (current_stats_floats ts) as [xs ->]. apply convert_float_list.
Qed.

(** The rename block on a store with [Stats] written, and the store after
    the rename with [Stats] written: the same store. *)
Lemma renamed_insert_Stats obj q v :
  renamed (<["Stats" := q]> obj) v = <["Stats" := q]> (renamed obj v).
Proof.
  unfold renamed.
  rewrite (insert_insert_ne obj "vonMises" "Stats") by done.
  by rewrite delete_insert_ne.
Qed.

Lemma renamed_lookup_Stats obj v : renamed obj v !! "Stats" = obj !! "Stats".
Proof. unfold renamed. by rewrite lookup_delete_ne, lookup_insert_ne. Qed.

(** C2 (shape reduction).  On a [Stats] list of thirteen (min, avg, max)
    triples the second block of [onDocumentRestored] returns normally and
    leaves the twenty-six (min, max) entries: entry [2j] is entry [3j] and
    entry [2j+1] is entry [3j+2] of the old list.  The loop deletes from the
    last triple to the first: when the triples [12 .. j] have been
    processed, the first [3j] entries are still in place.  The whole pass
    gives this list on every object whose rename block does not raise. *)
Theorem shape_reduction_correct obj p ts :
  obj !! "Stats" = Some p -> prop_type p = PropertyFloatList ->
  prop_value p = VList (legacy_stats ts) -> length ts = 13%nat ->
  stats_rule obj
    = (<["Stats" := with_value p (VList (current_stats ts))]> obj, inr tt) /\
  length (current_stats ts) = 26%nat /\
  (forall j : nat, (j < 13)%nat ->
     current_stats ts !! (2 * j)%nat = legacy_stats ts !! (3 * j)%nat /\
     current_stats ts !! (2 * j + 1)%nat = legacy_stats ts !! (3 * j + 2)%nat) /\
  (forall j : nat, (j <= 13)%nat ->
     for_each (py_range 12 (Z.of_nat j - 1) (-1))
       (fun i temp => lift (py_delitem temp (3 * i + 1))) (VList (legacy_stats ts)) obj
     = (obj, inr (VList (take (3 * j) (legacy_stats ts)
                           ++ drop_avg (drop (3 * j) (legacy_stats ts)))))) /\
  (obj !! "StressValues" = None \/
   (obj !! "vonMises" = None /\
    exists q zs, obj !! "StressValues" = Some q /\ prop_value q = VList (VFloat <$> zs)) ->
   outcome onDocumentRestored obj = inr tt /\
   value_of "Stats" (exec onDocumentRestored obj) = Some (VList (current_stats ts))).
Proof.
  intros H Hty Hv Hlen.
  assert (length (legacy_stats ts) = 39%nat) as Hl
    by (rewrite legacy_stats_length; lia).
  split; [by apply stats_rule_legacy|].
  split; [rewrite <- drop_avg_legacy_stats; by apply (drop_avg_length 13)|].
  split; [intros j Hj; rewrite <- drop_avg_legacy_stats; apply drop_avg_lookup; lia|].
  split.
  - intros j Hj.
    pose proof (shape_loop obj (13 - j) j (take (3 * j) (legacy_stats ts))
                  (drop (3 * j) (legacy_stats ts)) []) as Hloop.
    rewrite !app_nil_r, take_drop in Hloop.
    replace (Z.of_nat (j + (13 - j)) - 1) with 12 in Hloop by lia.
    apply Hloop; [rewrite length_take|rewrite length_drop]; lia.
  - unfold outcome, exec. intros [Hs|(Hm & q & zs & Hs & Hq)].
    + rewrite (onDocumentRestored_renamed _ Hs), (stats_rule_legacy _ _ _ H Hty Hv Hlen).
      split; [done|]. unfold value_of. cbn [fst]. by rewrite lookup_insert_eq.
    + rewrite onDocumentRestored_unfold.
      rewrite (rename_rule_ok obj q (VList (VFloat <$> zs)) Hs Hm)
        by (rewrite Hq; apply convert_float_list).
      rewrite (stats_rule_legacy _ p ts) by (by rewrite ?renamed_lookup_Stats).
      split; [done|]. unfold value_of. cbn [fst]. by rewrite lookup_insert_eq.
Qed.

Lemma shape_reduction_correct_witness :
  legacy_obj !! "Stats" = Some (stats_prop (VList (legacy_stats example_triples))) /\
  length example_triples = 13%nat /\
  stats_rule legacy_obj
    = (<["Stats" := stats_prop (VList (current_stats example_triples))]> legacy_obj, inr tt) /\
  value_of "Stats" (exec onDocumentRestored legacy_obj)
    = Some (VList (current_stats example_triples)).
Proof.
  assert (legacy_obj !! "Stats" = Some (stats_prop (VList (legacy_stats example_triples))))
    as H by (vm_compute; reflexivity).
  assert (length example_triples = 13%nat) as Hlen by reflexivity.
  destruct (shape_reduction_correct legacy_obj _ example_triples H eq_refl eq_refl Hlen)
    as (Hblock & _ & _ & _ & Hpass).
  split; [exact H|]. split; [exact Hlen|]. split; [exact Hblock|].
  apply Hpass. right. split; [vm_compute; reflexivity|].
  exists (stress_prop example_stress), [1.5%float; 2.5%float].
  split; [vm_compute; reflexivity|reflexivity].
Defined.

(** C3 (rename, as amended).  On every object that has [StressValues] with
    a list of floats [xs] and does not have [vonMises] yet, the first block
    of [onDocumentRestored] declares [vonMises], copies [xs] into it and
    removes [StressValues]; after the pass [vonMises] holds [xs] and
    [StressValues] is absent. *)
Theorem rename_loss_free obj p xs :
  obj !! "StressValues" = Some p -> prop_value p = VList (VFloat <$> xs) ->
  obj !! "vonMises" = None ->
  rename_rule obj = (renamed obj (VList (VFloat <$> xs)), inr tt) /\
  exec onDocumentRestored obj !! "vonMises"
    = Some (vonMises_prop (VList (VFloat <$> xs))) /\
  exec onDocumentRestored obj !! "StressValues" = None.
Proof.
  intros H Hv Hm.
  assert (rename_rule obj = (renamed obj (VList (VFloat <$> xs)), inr tt)) as R.
  { apply rename_rule_ok with p; try done. rewrite Hv. apply convert_float_list. }
  split; [exact R|].
  assert (exec onDocumentRestored obj = exec stats_rule (renamed obj (VList (VFloat <$> xs))))
    as -> by (unfold exec; by rewrite onDocumentRestored_unfold, R).
  rewrite !stats_rule_frame by done. unfold renamed.
  split; [by rewrite lookup_delete_ne, ?lookup_insert_eq|apply lookup_delete_eq].
Qed.

Lemma rename_loss_free_witness :
  legacy_obj !! "StressValues" = Some (stress_prop example_stress) /\
  legacy_obj !! "vonMises" = None /\
  exec onDocumentRestored legacy_obj !! "vonMises" = Some (vonMises_prop example_stress) /\
  exec onDocumentRestored legacy_obj !! "StressValues" = None.
Proof.
  assert (legacy_obj !! "StressValues" = Some (stress_prop example_stress)) as H
    by (vm_compute; reflexivity).
  assert (legacy_obj !! "vonMises" = None) as Hm by (vm_compute; reflexivity).
  destruct (rename_loss_free legacy_obj _ [1.5%float; 2.5%float] H eq_refl Hm)
    as (_ & Hv & Hs).
  exact (conj H (conj Hm (conj Hv Hs))).
Defined.

(** C3, counterexample to the rename of every object with [StressValues]:
    on an object that has both
    [StressValues] and [vonMises], the declaration of [vonMises] is refused,
    the pass stops there, [StressValues] stays and its value is not copied. *)
Lemma rename_redeclared_counterexample :
  value_of "StressValues" both_obj = Some example_stress /\
  onDocumentRestored both_obj = (both_obj, inl DuplicateAttributeError) /\
  value_of "vonMises" (exec onDocumentRestored both_obj) <> Some example_stress /\
  is_Some (exec onDocumentRestored both_obj !! "StressValues").
Proof.
  assert (onDocumentRestored both_obj = (both_obj, inl DuplicateAttributeError)) as E.
  { rewrite onDocumentRestored_unfold, rename_rule_dup; [done| |];
      vm_compute; by eexists. }
  split; [by vm_compute|]. split; [exact E|].
  unfold exec. rewrite E. cbn [fst].
  split; [by vm_compute|vm_compute; by eexists].
Qed.

(** C4 (forward safety).  On an object without [StressValues] whose [Stats]
    list has any length other than 39, the pass returns normally and the
    store is unchanged. *)
Theorem forward_safety obj n :
  obj !! "StressValues" = None -> stats_length obj = Some n -> n <> 39%nat ->
  onDocumentRestored obj = (obj, inr tt).
Proof.
  intros Hs Hn Hne. rewrite (onDocumentRestored_renamed _ Hs).
  unfold stats_length, value_of in Hn.
  destruct (obj !! "Stats") as [p|] eqn:H; [|done]. simpl in Hn.
  destruct (prop_value p) as [| | | | |l] eqn:Hv; try done.
  apply stats_rule_other with p (Z.of_nat (length l)); [done|by rewrite Hv|].
  injection Hn as <-. lia.
Qed.

Lemma forward_safety_witness :
  current_obj !! "StressValues" = None /\ stats_length current_obj = Some 26%nat /\
  onDocumentRestored current_obj = (current_obj, inr tt).
Proof.
  assert (current_obj !! "StressValues" = None) as Hs by (vm_compute; reflexivity).
  assert (stats_length current_obj = Some 26%nat) as Hn by (vm_compute; reflexivity).
  split; [exact Hs|]. split; [exact Hn|].
  apply (forward_safety current_obj 26%nat Hs Hn). lia.
Defined.
(** C5 (order of the two rules, as amended).  One order of the two blocks
    returns normally with a store exactly when the other order returns
    normally with the same store. *)
Theorem rules_commute_when_complete obj obj' :
  onDocumentRestored obj = (obj', inr tt) <->
  onDocumentRestored_swapped obj = (obj', inr tt).
Proof.
  split.
  { (* rename, then shape reduction, returns: so does the other order *)
    rewrite onDocumentRestored_unfold, onDocumentRestored_swapped_unfold.
    destruct (rename_rule_cases obj)
      as [[H E]|[(_ & _ & E)|[(p & _ & _ & E)|(p & v & H & Hm & Hc & E)]]];
      rewrite E; try done; intros S.
    - rewrite S. apply rename_rule_absent.
      replace obj' with (exec stats_rule obj) by (unfold exec; by rewrite S).
      by rewrite stats_rule_frame.
    - destruct (stats_rule_local (renamed obj v) obj (renamed_lookup_Stats obj v))
        as [(r & E1 & E2)|(q & E1 & E2)]; rewrite E1 in S; rewrite E2; simplify_eq.
      + by apply rename_rule_ok with p.
      + rewrite <- renamed_insert_Stats.
        apply rename_rule_ok with p; by rewrite ?lookup_insert_ne.
  }
  { (* shape reduction, then rename, returns: so does the pass *)
    rewrite onDocumentRestored_unfold, onDocumentRestored_swapped_unfold.
    destruct (stats_rule obj) as [o [e|[]]] eqn:S; [done|]. intros R.
    assert (forall name, name <> "Stats" -> o !! name = obj !! name) as Hframe.
    { intros name N. replace o with (exec stats_rule obj) by (unfold exec; by rewrite S).
      by apply stats_rule_frame. }
    destruct (rename_rule_cases o)
      as [[H E]|[(_ & _ & E)|[(p & _ & _ & E)|(p & v & H & Hm & Hc & E)]]];
      rewrite E in R; simplify_eq.
    - rewrite Hframe in H by done. by rewrite (rename_rule_absent _ H).
    - rewrite Hframe in H, Hm by done. rewrite (rename_rule_ok _ _ _ H Hm Hc).
      destruct (stats_rule_local obj (renamed obj v) (eq_sym (renamed_lookup_Stats obj v)))
        as [(r & E1 & E2)|(q & E1 & E2)]; rewrite E1 in S; rewrite E2; simplify_eq.
      + done.
      + by rewrite renamed_insert_Stats.
  }
Qed.

Lemma rules_commute_when_complete_witness :
  onDocumentRestored legacy_obj = (exec onDocumentRestored legacy_obj, inr tt) /\
  onDocumentRestored_swapped legacy_obj = (exec onDocumentRestored legacy_obj, inr tt).
Proof.
  assert (onDocumentRestored legacy_obj = (exec onDocumentRestored legacy_obj, inr tt))
    as H by (vm_compute; reflexivity).
  split; [exact H|].
  exact (proj1 (rules_commute_when_complete legacy_obj _) H).
Defined.

(** C5, counterexample to the two orders agreeing on every object: on a
    legacy object without [Stats] the
    pass renames [StressValues] and then raises at [len(obj.Stats)], while
    in the opposite order it raises before anything is renamed. *)
Lemma rule_order_counterexample :
  onDocumentRestored no_stats_obj
    = (renamed no_stats_obj example_stress, inl UnknownAttributeError) /\
  onDocumentRestored_swapped no_stats_obj = (no_stats_obj, inl UnknownAttributeError) /\
  exec onDocumentRestored no_stats_obj <> exec onDocumentRestored_swapped no_stats_obj.
Proof.
  assert (onDocumentRestored no_stats_obj
          = (renamed no_stats_obj example_stress, inl UnknownAttributeError)) as E1.
  { rewrite onDocumentRestored_unfold.
    rewrite (rename_rule_ok no_stats_obj (stress_prop example_stress) example_stress)
      by (vm_compute; reflexivity).
    apply stats_rule_absent. by vm_compute. }
  assert (onDocumentRestored_swapped no_stats_obj
          = (no_stats_obj, inl UnknownAttributeError)) as E2.
  { rewrite onDocumentRestored_swapped_unfold, stats_rule_absent; [done|by vm_compute]. }
  split; [exact E1|]. split; [exact E2|].
  unfold exec. rewrite E1, E2. cbn [fst]. intros Heq.
  apply (f_equal (fun m : store => m !! "StressValues")) in Heq.
  by vm_compute in Heq.
Qed.

(** The pass reads [Stats] without a guard: without [Stats] it raises. *)
Lemma onDocumentRestored_no_Stats obj :
  obj !! "Stats" = None -> exists e, outcome onDocumentRestored obj = inl e.
Proof.
  intros H. unfold outcome. rewrite onDocumentRestored_unfold.
  destruct (rename_rule obj) as [o [e|[]]] eqn:R; [by exists e|].
  exists UnknownAttributeError. rewrite stats_rule_absent; [done|].
  replace o with (exec rename_rule obj) by (unfold exec; by rewrite R).
  by rewrite rename_rule_frame.
Qed.
End migration.

(** ** Construction *)

(** A constructor runs a sequence of declarations and privileged writes on
    the object [base] its base class hands over.  The attributes it has
    touched so far are kept as an association list [props] (latest entry
    first) in front of [base]. *)

Section construction_steps.
Implicit Types (base : store) (props : list (string * property)).

Lemma declare_step ty name group doc ro hid props base :
  (list_to_map props : store) !! name = None -> base !! name = None ->
  addLockedProperty ty name group doc ro hid (list_to_map props ∪ base)
  = (list_to_map ((name, Property ty group doc ro hid true (default_value ty)) :: props)
       ∪ base, inr tt).
Proof.
  intros H1 H2. rewrite addLockedProperty_fresh.
  - by rewrite insert_union_l.
  - by apply lookup_union_None.
Qed.

Lemma write_step_declared name v v' p props base :
  (list_to_map props : store) !! name = Some p -> convert (prop_type p) v = Some v' ->
  setattr name v (list_to_map props ∪ base)
  = (list_to_map ((name, with_value p v') :: props) ∪ base, inr tt).
Proof.
  intros H Hc. rewrite (setattr_ok name v v' _ p).
  - by rewrite insert_union_l.
  - by apply lookup_union_Some_l.
  - done.
Qed.

Lemma write_step_inherited name v v' p props base :
  (list_to_map props : store) !! name = None -> base !! name = Some p ->
  convert (prop_type p) v = Some v' ->
  setattr name v (list_to_map props ∪ base)
  = (list_to_map ((name, with_value p v') :: props) ∪ base, inr tt).
Proof.
  intros H1 H2 Hc. rewrite (setattr_ok name v v' _ p).
  - by rewrite insert_union_l.
  - by rewrite lookup_union_r.
  - done.
Qed.
End construction_steps.

(** One statement of a constructor, on a goal about [(m ≫= k) (props ∪ base)]
    or [m (props ∪ base)]. *)
Ltac constructor_step :=
  lazymatch goal with
  | |- mbind _ (addLockedProperty _ _ _ _ _ _) _ = _ =>
      erewrite bind_inr;
      [|apply declare_step; [vm_compute; reflexivity|assumption]]
  | |- mbind _ (setattr _ _) _ = _ =>
      erewrite bind_inr;
      [|first [ eapply write_step_declared; vm_compute; reflexivity
              | eapply write_step_inherited;
                [vm_compute; reflexivity|eassumption|vm_compute; reflexivity] ]]
  | |- setattr _ _ _ = _ =>
      first [ eapply write_step_declared; vm_compute; reflexivity
            | eapply write_step_inherited;
              [vm_compute; reflexivity|eassumption|vm_compute; reflexivity] ]
  end.

Ltac split_lacks H :=
  repeat match type of H with
         | Forall _ (_ :: _) =>
             let H1 := fresh "Hfresh" in
             apply Forall_cons in H; destruct H as [H1 H]
         end.

Section result_construction.
Import ResultMechanical.

(** [ResultMechanical.__init__] on a host object that has a float-list
    [Stats] and none of the names the constructor declares. *)
Lemma ResultMechanical_init_ok super_init obj base p0 :
  super_init obj = (base, inr tt) ->
  base !! "Stats" = Some p0 -> prop_type p0 = PropertyFloatList ->
  lacks declared_names base ->
  exists obj',
    __init__ super_init obj = (obj', inr tt) /\
    obj' !! "ResultType"
      = Some (Property PropertyString "Base" "Type of the result" true false true
                (VStr "Fem::ResultMechanical")) /\
    obj' !! "Stats" = Some (with_value p0 (VList (repeat (VFloat 0) 26))) /\
    obj' !! "vonMises" = Some (vonMises_prop (VList [])) /\
    obj' !! "StressValues" = base !! "StressValues".
Proof.
  intros Hsuper HStats Hty Hlacks.
  destruct p0 as [ty ? ? ? ? ? ?]. simpl in Hty. subst ty.
  unfold lacks, declared_names in Hlacks. split_lacks Hlacks.
  rewrite <- (left_id_L ∅ (∪) base) in Hsuper.
  change (∅ : store) with (list_to_map [] : store) in Hsuper.
  eexists. split.
  - unfold __init__. rewrite (bind_inr _ _ _ _ _ Hsuper).
    repeat constructor_step.
  - split; [|split; [|split]].
    + apply lookup_union_Some_l. vm_compute. reflexivity.
    + apply lookup_union_Some_l. vm_compute. reflexivity.
    + apply lookup_union_Some_l. vm_compute. reflexivity.
    + rewrite lookup_union_r; [done|]. vm_compute. reflexivity.
Qed.
End result_construction.

Section equation_construction.
Import Proxy.

(** [Proxy.__init__] on an object whose base classes have declared an
    integer [Priority] and none of the names the constructor declares. *)
Lemma Proxy_init_ok super_init obj base p0 :
  super_init obj = (base, inr tt) ->
  base !! "Priority" = Some p0 -> prop_type p0 = PropertyInteger ->
  lacks declared_names base ->
  exists obj',
    __init__ super_init obj = (obj', inr tt) /\
    obj' !! "Priority" = Some (with_value p0 (VInt 10)) /\
    Forall (fun name =>
              obj' !! name
              = Some (Property PropertyBool "Results" "" false false true
                        (VBool (String.eqb name "CalculateNodalFields"))))
           result_toggles.
Proof.
  intros Hsuper HPriority Hty Hlacks.
  destruct p0 as [ty ? ? ? ? ? ?]. simpl in Hty. subst ty.
  unfold lacks, declared_names in Hlacks. split_lacks Hlacks.
  rewrite <- (left_id_L ∅ (∪) base) in Hsuper.
  change (∅ : store) with (list_to_map [] : store) in Hsuper.
  eexists. split.
  - unfold __init__. rewrite (bind_inr _ _ _ _ _ Hsuper).
    repeat constructor_step.
  - split.
    + apply lookup_union_Some_l. vm_compute. reflexivity.
    + unfold result_toggles.
      repeat (apply Forall_cons; split;
              [apply lookup_union_Some_l; vm_compute; reflexivity|]).
      apply Forall_nil_2.
Qed.
End equation_construction.

(** ** The evaluation order *)

Section resolve_order_facts.
Context {A : Type} (priority : A -> Z).
Implicit Types (x y : A) (l : list A).

Lemma insert_by_priority_perm x l : insert_by_priority priority x l ≡ₚ x :: l.
Proof.
  induction l as [|y l IH]; simpl; [done|].
  destruct (priority x <=? priority y); [done|].
  rewrite IH. apply Permutation_swap.
Qed.

Lemma resolve_order_perm l : resolve_order priority l ≡ₚ l.
Proof.
  unfold resolve_order. induction l as [|x l IH]; simpl; [done|].
  by rewrite insert_by_priority_perm, IH.
Qed.

Lemma insert_by_priority_sorted x l :
  StronglySorted (priority_le priority) l ->
  StronglySorted (priority_le priority) (insert_by_priority priority x l).
Proof.
  unfold priority_le. induction l as [|y l IH]; intros Hs; simpl.
  - by repeat constructor.
  - apply StronglySorted_inv in Hs as [Hs Hy].
    destruct (priority x <=? priority y) eqn:E.
    + apply Z.leb_le in E. constructor; [by constructor|].
      constructor; [done|]. eapply Forall_impl; [exact Hy|]. simpl. intros z Hz. lia.
    + apply Z.leb_gt in E. constructor; [by apply IH|].
      rewrite insert_by_priority_perm. constructor; [lia|done].
Qed.

Lemma resolve_order_sorted l :
  StronglySorted (priority_le priority) (resolve_order priority l).
Proof.
  unfold resolve_order. induction l as [|x l IH]; simpl; [constructor|].
  by apply insert_by_priority_sorted.
Qed.

(** Among the equations of one priority the order of declaration is kept. *)
Lemma insert_by_priority_stable z x l :
  filter (fun a => priority a = z) (insert_by_priority priority x l)
  = filter (fun a => priority a = z) (x :: l).
Proof.
  induction l as [|y l IH]; simpl; [done|].
  destruct (priority x <=? priority y) eqn:E; [done|].
  apply Z.leb_gt in E.
  rewrite (filter_cons _ y), IH, !filter_cons.
  repeat case_decide; try done; lia.
Qed.

Lemma resolve_order_stable z l :
  filter (fun a => priority a = z) (resolve_order priority l)
  = filter (fun a => priority a = z) l.
Proof.
  unfold resolve_order. induction l as [|x l IH]; simpl; [done|].
  by rewrite insert_by_priority_stable, !filter_cons, IH.
Qed.
End resolve_order_facts.

(** ** Equation objects *)

Lemma filter_agree {A : Type} (f g : A -> bool) (l : list A) :
  Forall (fun x => f x = g x) l ->
  filter (fun x => f x = true) l = filter (fun x => g x = true) l.
Proof.
  induction 1 as [|x l Hx _ IH]; [done|].
  rewrite !filter_cons, IH, Hx. done.
Qed.

Section equations.
Import Proxy.

(** C6 (result toggles of the magnetodynamic equation).  After
    [Proxy.__init__], of the post processor options exactly
    [CalculateNodalFields] holds [True]; the ten others hold [False]. *)
Theorem magnetodynamic_result_toggles super_init obj base p0 :
  super_init obj = (base, inr tt) ->
  base !! "Priority" = Some p0 -> prop_type p0 = PropertyInteger ->
  lacks declared_names base ->
  outcome (__init__ super_init) obj = inr tt /\
  filter (fun name => is_on name (exec (__init__ super_init) obj) = true) result_toggles
    = ["CalculateNodalFields"] /\
  value_of "CalculateNodalFields" (exec (__init__ super_init) obj) = Some (VBool true) /\
  Forall (fun name => value_of name (exec (__init__ super_init) obj) = Some (VBool false))
    ["CalculateCurrentDensity"; "CalculateElectricField"; "CalculateElementalFields";
     "CalculateHarmonicLoss"; "CalculateJouleHeating"; "CalculateMagneticFieldStrength";
     "CalculateMaxwellStress"; "CalculateNodalForces"; "CalculateNodalHeating";
     "DiscontinuousBodies"].
Proof.
  intros Hsuper HPriority Hty Hlacks.
  destruct (Proxy_init_ok _ _ _ _ Hsuper HPriority Hty Hlacks) as (obj' & E & _ & Ht).
  unfold outcome, exec. rewrite E. cbn [fst snd]. split; [done|].
  split.
  - rewrite (filter_agree (fun name => is_on name obj')
               (fun name => String.eqb name "CalculateNodalFields")); [done|].
    eapply Forall_impl; [exact Ht|]. intros name H. cbv beta in H |- *.
    unfold is_on, value_of. by rewrite H.
  - unfold result_toggles in Ht. split_lacks Ht.
    split; [|repeat (apply Forall_cons_2; [|])]; try apply Forall_nil_2;
      match goal with
      | H : obj' !! ?n = _ |- value_of ?n obj' = _ => exact (f_equal (fmap prop_value) H)
      end.
Qed.

Lemma magnetodynamic_result_toggles_witness :
  example_equation_base ∅
    = (<["Priority" := Property PropertyInteger "Base" "" false false true (VInt 0)]> ∅,
       inr tt) /\
  outcome (__init__ example_equation_base) ∅ = inr tt /\
  filter (fun name => is_on name (exec (__init__ example_equation_base) ∅) = true)
    result_toggles = ["CalculateNodalFields"].
Proof.
  assert (example_equation_base ∅
          = (<["Priority" := Property PropertyInteger "Base" "" false false true (VInt 0)]> ∅,
             inr tt)) as Hsuper by reflexivity.
  assert (lacks declared_names
            (<["Priority" := Property PropertyInteger "Base" "" false false true (VInt 0)]> ∅))
    as Hlacks
    by (repeat (apply Forall_cons_2; [vm_compute; reflexivity|]); apply Forall_nil_2).
  destruct (magnetodynamic_result_toggles example_equation_base ∅ _ _
              Hsuper (lookup_insert_eq _ _ _) eq_refl Hlacks) as (Hok & Hfilter & _).
  exact (conj Hsuper (conj Hok Hfilter)).
Defined.

(** C8 (evaluation order).  The resolved order is a rearrangement of the
    declared equations, ascending in [Priority], and equations of one
    priority keep their order of declaration; equations declared with
    priorities 10, 5, 10 are resolved as second, first, third.  A
    magnetodynamic equation is constructed with [Priority] 10. *)
Theorem priority_ordering :
  (forall (A : Type) (priority : A -> Z) (l : list A),
     resolve_order priority l ≡ₚ l /\
     StronglySorted (priority_le priority) (resolve_order priority l) /\
     forall z, filter (fun a => priority a = z) (resolve_order priority l)
               = filter (fun a => priority a = z) l) /\
  (forall (A : Type) (priority : A -> Z) (i1 i2 i3 : A),
     priority i1 = 10 -> priority i2 = 5 -> priority i3 = 10 ->
     resolve_order priority [i1; i2; i3] = [i2; i1; i3]) /\
  (forall super_init obj base p0,
     super_init obj = (base, inr tt) ->
     base !! "Priority" = Some p0 -> prop_type p0 = PropertyInteger ->
     lacks declared_names base ->
     outcome (__init__ super_init) obj = inr tt /\
     priority_of (exec (__init__ super_init) obj) = 10).
Proof.
  split; [|split].
  - intros A priority l. split; [apply resolve_order_perm|].
    split; [apply resolve_order_sorted|]. intros z. apply resolve_order_stable.
  - intros A priority i1 i2 i3 H1 H2 H3.
    unfold resolve_order. cbn [foldr insert_by_priority].
    rewrite H2, H3. change (5 <=? 10) with true. cbn [insert_by_priority].
    rewrite H1, H2, H3. reflexivity.
  - intros super_init obj base p0 Hsuper HPriority Hty Hlacks.
    destruct (Proxy_init_ok _ _ _ _ Hsuper HPriority Hty Hlacks) as (obj' & E & Hp & _).
    unfold outcome, exec. rewrite E. cbn [fst snd]. split; [done|].
    unfold priority_of. by rewrite Hp.
Qed.

Lemma priority_ordering_witness :
  priority_of (exec (__init__ example_equation_base) ∅) = 10 /\
  priority_of (example_equation "Heat" 5) = 5 /\
  priority_of (example_equation "Flow" 10) = 10 /\
  resolve_order priority_of
    [exec (__init__ example_equation_base) ∅;
     example_equation "Heat" 5; example_equation "Flow" 10]
  = [example_equation "Heat" 5;
     exec (__init__ example_equation_base) ∅; example_equation "Flow" 10].
Proof.
  assert (lacks declared_names
            (<["Priority" := Property PropertyInteger "Base" "" false false true (VInt 0)]> ∅))
    as Hlacks
    by (repeat (apply Forall_cons_2; [vm_compute; reflexivity|]); apply Forall_nil_2).
  pose proof (proj2 (proj2 (proj2 priority_ordering) example_equation_base ∅ _ _
                eq_refl (lookup_insert_eq _ _ _) eq_refl Hlacks)) as H1.
  assert (priority_of (example_equation "Heat" 5) = 5) as H2 by reflexivity.
  assert (priority_of (example_equation "Flow" 10) = 10) as H3 by reflexivity.
  split; [exact H1|]. split; [exact H2|]. split; [exact H3|].
  exact (proj1 (proj2 priority_ordering) store priority_of _ _ _ H1 H2 H3).
Defined.
End equations.

(** ** Result objects: construction and restore *)

Section result_objects.
Import ResultMechanical.

(** The shape-reduction block on any list of 39 floats. *)
Lemma stats_rule_floats obj p xs :
  obj !! "Stats" = Some p -> prop_type p = PropertyFloatList ->
  prop_value p = VList (VFloat <$> xs) -> length xs = 39%nat ->
  stats_rule obj
    = (<["Stats" := with_value p (VList (VFloat <$> drop_avg xs))]> obj, inr tt).
Proof.
  intros H Hty Hv Hlen.
  rewrite (stats_rule_list _ _ _ H Hv) by (by rewrite length_fmap).
  rewrite drop_avg_floats. eapply setattr_ok; [done|].
  rewrite Hty. apply convert_float_list.
Qed.

(** The pass does not change the number of entries of a [Stats] list
    that does not have 39. *)
Lemma onDocumentRestored_keeps_Stats obj n :
  stats_length obj = Some n -> n <> 39%nat ->
  exec onDocumentRestored obj !! "Stats" = obj !! "Stats".
Proof.
  intros Hn Hne. unfold exec. rewrite onDocumentRestored_unfold.
  assert (exec rename_rule obj !! "Stats" = obj !! "Stats") as Hframe
    by (by apply rename_rule_frame).
  unfold exec in Hframe.
  destruct (rename_rule obj) as [o [e|[]]]; [exact Hframe|]. simpl in Hframe.
  unfold stats_length, value_of in Hn. rewrite <- Hframe in Hn |- *.
  destruct (o !! "Stats") as [p|] eqn:H; [|done]. simpl in Hn.
  destruct (prop_value p) as [| | | | |l] eqn:Hv; try done.
  rewrite (stats_rule_other o p (Z.of_nat (length l))); [done|done|by rewrite Hv|].
  injection Hn as <-. lia.
Qed.

(** On a constructed object ([Stats] holds the 26 zeros, no
    [StressValues]) the pass returns normally. *)
Lemma forward_safety_constructed obj p0 :
  obj !! "StressValues" = None ->
  obj !! "Stats" = Some (with_value p0 (VList (repeat (VFloat 0) 26))) ->
  onDocumentRestored obj = (obj, inr tt).
Proof.
  intros Hs H. rewrite (onDocumentRestored_renamed _ Hs).
  by apply stats_rule_other with (with_value p0 (VList (repeat (VFloat 0) 26))) 26.
Qed.

(** C7 (read-only attributes).  The external [set] of a read-only
    attribute fails with [ReadOnlyViolationError] whatever the value.
    [ResultMechanical.__init__] declares [ResultType] read-only and then
    sets it to ["Fem::ResultMechanical"] through the privileged write; on
    the constructed object every external [set] of [ResultType] is refused,
    and the privileged write still goes through. *)
Theorem read_only_enforced super_init obj base p0 :
  super_init obj = (base, inr tt) ->
  base !! "Stats" = Some p0 -> prop_type p0 = PropertyFloatList ->
  lacks declared_names base ->
  (forall (o : store) name p v,
     o !! name = Some p -> prop_readOnly p = true ->
     set name v o = (o, inl ReadOnlyViolationError)) /\
  outcome (__init__ super_init) obj = inr tt /\
  value_of "ResultType" (exec (__init__ super_init) obj) = Some (VStr Type_) /\
  prop_readOnly <$> exec (__init__ super_init) obj !! "ResultType" = Some true /\
  (forall v, set "ResultType" v (exec (__init__ super_init) obj)
             = (exec (__init__ super_init) obj, inl ReadOnlyViolationError)) /\
  (forall s, outcome (setattr "ResultType" (VStr s)) (exec (__init__ super_init) obj)
             = inr tt /\
             value_of "ResultType"
               (exec (setattr "ResultType" (VStr s)) (exec (__init__ super_init) obj))
             = Some (VStr s)).
Proof.
  intros Hsuper HStats Hty Hlacks.
  destruct (ResultMechanical_init_ok _ _ _ _ Hsuper HStats Hty Hlacks)
    as (obj' & E & HRT & _).
  unfold outcome, exec. rewrite E. cbn [fst snd].
  split; [intros o name p v; apply set_readOnly|].
  split; [done|]. unfold value_of. rewrite HRT.
  split; [done|]. split; [done|].
  split; [intros v; by eapply set_readOnly|].
  intros s. erewrite setattr_ok; [|exact HRT|reflexivity]. cbn [fst snd].
  split; [done|]. by rewrite lookup_insert_eq.
Qed.

Lemma read_only_enforced_witness :
  fresh_result_obj !! "Stats" = Some (stats_prop (VList [])) /\
  lacks declared_names fresh_result_obj /\
  outcome (__init__ (mret tt)) fresh_result_obj = inr tt /\
  value_of "ResultType" (exec (__init__ (mret tt)) fresh_result_obj)
    = Some (VStr "Fem::ResultMechanical") /\
  set "ResultType" (VStr "other") (exec (__init__ (mret tt)) fresh_result_obj)
    = (exec (__init__ (mret tt)) fresh_result_obj, inl ReadOnlyViolationError).
Proof.
  assert (fresh_result_obj !! "Stats" = Some (stats_prop (VList []))) as HStats
    by (vm_compute; reflexivity).
  assert ((mret tt : M unit) fresh_result_obj = (fresh_result_obj, inr tt)) as Hsuper
    by reflexivity.
  assert (lacks declared_names fresh_result_obj) as Hlacks
    by (repeat (apply Forall_cons_2; [vm_compute; reflexivity|]); apply Forall_nil_2).
  destruct (read_only_enforced (mret tt) fresh_result_obj fresh_result_obj _
              Hsuper HStats eq_refl Hlacks) as (_ & Hok & Hv & _ & Hset & _).
  exact (conj HStats (conj Hlacks (conj Hok (conj Hv (Hset (VStr "other")))))).
Defined.

(** C9 (length of [Stats]).  [ResultMechanical.__init__] leaves [Stats] as
    a list of 26 zeros; the shape-reduction block, on a list of 39 floats,
    leaves 26 entries; and a pass of [onDocumentRestored] over an object
    whose [Stats] has 26 entries leaves [Stats] as it is. *)
Theorem stats_length_invariant :
  (forall super_init obj base p0,
     super_init obj = (base, inr tt) ->
     base !! "Stats" = Some p0 -> prop_type p0 = PropertyFloatList ->
     lacks declared_names base ->
     outcome (__init__ super_init) obj = inr tt /\
     value_of "Stats" (exec (__init__ super_init) obj)
       = Some (VList (repeat (VFloat 0) 26)) /\
     stats_length (exec (__init__ super_init) obj) = Some 26%nat) /\
  (forall obj p xs,
     obj !! "Stats" = Some p -> prop_type p = PropertyFloatList ->
     prop_value p = VList (VFloat <$> xs) -> length xs = 39%nat ->
     outcome stats_rule obj = inr tt /\
     stats_length (exec stats_rule obj) = Some 26%nat) /\
  (forall obj,
     stats_length obj = Some 26%nat ->
     exec onDocumentRestored obj !! "Stats" = obj !! "Stats" /\
     stats_length (exec onDocumentRestored obj) = Some 26%nat).
Proof.
  split; [|split].
  - intros super_init obj base p0 Hsuper HStats Hty Hlacks.
    destruct (ResultMechanical_init_ok _ _ _ _ Hsuper HStats Hty Hlacks)
      as (obj' & E & _ & HS & _).
    unfold outcome, exec, stats_length, value_of. rewrite E. cbn [fst snd].
    rewrite HS. done.
  - intros obj p xs H Hty Hv Hlen.
    unfold outcome, exec, stats_length, value_of.
    rewrite (stats_rule_floats _ _ _ H Hty Hv Hlen). cbn [fst snd].
    split; [done|]. rewrite lookup_insert_eq. simpl.
    by rewrite length_fmap, (drop_avg_length 13 xs Hlen).
  - intros obj Hn.
    assert (exec onDocumentRestored obj !! "Stats" = obj !! "Stats") as Hkeep
      by (by apply onDocumentRestored_keeps_Stats with 26%nat).
    split; [exact Hkeep|]. unfold stats_length, value_of in *. by rewrite Hkeep.
Qed.

Lemma stats_length_invariant_witness :
  stats_length (exec (__init__ (mret tt)) fresh_result_obj) = Some 26%nat /\
  stats_length (exec stats_rule legacy_obj) = Some 26%nat /\
  stats_length current_obj = Some 26%nat /\
  stats_length (exec onDocumentRestored current_obj) = Some 26%nat.
Proof.
  destruct stats_length_invariant as (Hinit & Hrule & Hkeep).
  assert (lacks declared_names fresh_result_obj) as Hlacks
    by (repeat (apply Forall_cons_2; [vm_compute; reflexivity|]); apply Forall_nil_2).
  assert (fresh_result_obj !! "Stats" = Some (stats_prop (VList []))) as HStats
    by (vm_compute; reflexivity).
  assert ((mret tt : M unit) fresh_result_obj = (fresh_result_obj, inr tt)) as Hsuper
    by reflexivity.
  assert (legacy_obj !! "Stats" = Some (stats_prop (VList (legacy_stats example_triples))))
    as HL by (vm_compute; reflexivity).
  assert (legacy_stats example_triples = VFloat <$> example_floats) as Hxs
    by (vm_compute; reflexivity).
  assert (length example_floats = 39%nat) as Hlen by reflexivity.
  assert (stats_length current_obj = Some 26%nat) as HC by (vm_compute; reflexivity).
  split; [exact (proj2 (proj2 (Hinit (mret tt) fresh_result_obj fresh_result_obj _
                                 Hsuper HStats eq_refl Hlacks)))|].
  split; [exact (proj2 (Hrule legacy_obj _ example_floats HL eq_refl
                          (f_equal VList Hxs) Hlen))|].
  split; [exact HC|exact (proj2 (Hkeep current_obj HC))].
Defined.

(** C10 (the pass needs [Stats]).  [onDocumentRestored] reads [Stats]
    without a guard: on an object without [Stats] it raises, so a pass that
    returns normally was given an object with [Stats]; where nothing is to
    be renamed the exception is [UnknownAttributeError] and the object is
    as before, on the legacy example the rename has been done when it
    raises.  An object that [__init__] has constructed has [Stats]. *)
Theorem stats_is_required :
  (forall obj, obj !! "Stats" = None ->
     exists e, outcome onDocumentRestored obj = inl e) /\
  (forall obj, outcome onDocumentRestored obj = inr tt -> is_Some (obj !! "Stats")) /\
  (forall obj, obj !! "Stats" = None -> obj !! "StressValues" = None ->
     onDocumentRestored obj = (obj, inl UnknownAttributeError)) /\
  (onDocumentRestored no_stats_obj
     = (renamed no_stats_obj example_stress, inl UnknownAttributeError) /\
   renamed no_stats_obj example_stress <> no_stats_obj) /\
  (forall super_init obj base p0,
     super_init obj = (base, inr tt) ->
     base !! "Stats" = Some p0 -> prop_type p0 = PropertyFloatList ->
     lacks declared_names base ->
     outcome (__init__ super_init) obj = inr tt /\
     is_Some (exec (__init__ super_init) obj !! "Stats") /\
     (base !! "StressValues" = None ->
      outcome onDocumentRestored (exec (__init__ super_init) obj) = inr tt)).
Proof.
  split; [exact onDocumentRestored_no_Stats|].
  split.
  { intros obj Hok. destruct (obj !! "Stats") as [p|] eqn:H; [by eexists|].
    destruct (onDocumentRestored_no_Stats obj H) as [e He]. congruence. }
  split.
  { intros obj H Hs. rewrite (onDocumentRestored_renamed _ Hs).
    by apply stats_rule_absent. }
  split.
  { split.
    - rewrite onDocumentRestored_unfold.
      rewrite (rename_rule_ok no_stats_obj (stress_prop example_stress) example_stress)
        by (vm_compute; reflexivity).
      apply stats_rule_absent. by vm_compute.
    - intros Heq. apply (f_equal (fun m : store => m !! "StressValues")) in Heq.
      by vm_compute in Heq. }
  intros super_init obj base p0 Hsuper HStats Hty Hlacks.
  destruct (ResultMechanical_init_ok _ _ _ _ Hsuper HStats Hty Hlacks)
    as (obj' & E & _ & HS & _ & HSV).
  unfold outcome, exec. rewrite E. cbn [fst snd].
  split; [done|]. split; [by eexists|].
  intros Hb. rewrite (forward_safety_constructed obj' p0); [done| |done].
  by rewrite HSV.
Qed.

Lemma stats_is_required_witness :
  no_stats_obj !! "Stats" = None /\
  (exists e, outcome onDocumentRestored no_stats_obj = inl e) /\
  outcome onDocumentRestored legacy_obj = inr tt /\
  is_Some (legacy_obj !! "Stats") /\
  is_Some (exec (__init__ (mret tt)) fresh_result_obj !! "Stats").
Proof.
  destruct stats_is_required as (Hraise & Hneeds & _ & _ & Hinit).
  assert (no_stats_obj !! "Stats" = None) as H by (vm_compute; reflexivity).
  assert (outcome onDocumentRestored legacy_obj = inr tt) as Hok
    by (vm_compute; reflexivity).
  assert (lacks declared_names fresh_result_obj) as Hlacks
    by (repeat (apply Forall_cons_2; [vm_compute; reflexivity|]); apply Forall_nil_2).
  assert (fresh_result_obj !! "Stats" = Some (stats_prop (VList []))) as HStats
    by (vm_compute; reflexivity).
  assert ((mret tt : M unit) fresh_result_obj = (fresh_result_obj, inr tt)) as Hsuper
    by reflexivity.
  split; [exact H|]. split; [exact (Hraise no_stats_obj H)|].
  split; [exact Hok|]. split; [exact (Hneeds legacy_obj Hok)|].
  exact (proj1 (proj2 (Hinit (mret tt) fresh_result_obj fresh_result_obj _
                         Hsuper HStats eq_refl Hlacks))).
Defined.
End result_objects.


(** * Further properties of the restore hook and of the constructors *)

(** ** The store a constructor leaves *)

Section constructed_store.
Implicit Types (base : store) (props : list (string * property)).

(** The attributes a constructor has not touched are those of the base. *)
Lemma constructed_frame props base name :
  name ∉ props.*1 -> (list_to_map props ∪ base) !! name = base !! name.
Proof.
  intros Hn. apply lookup_union_r. by apply not_elem_of_list_to_map_1.
Qed.

Lemma declare_step_dup ty name group doc ro hid props base q :
  (list_to_map props : store) !! name = None -> base !! name = Some q ->
  addLockedProperty ty name group doc ro hid (list_to_map props ∪ base)
  = (list_to_map props ∪ base, inl DuplicateAttributeError).
Proof.
  intros H1 H2. apply addLockedProperty_dup. exists q. by rewrite lookup_union_r.
Qed.
End constructed_store.

Section result_construction_store.
Import ResultMechanical.

Lemma ResultMechanical_init_store super_init obj base p0 :
  super_init obj = (base, inr tt) ->
  base !! "Stats" = Some p0 -> prop_type p0 = PropertyFloatList ->
  lacks declared_names base ->
  exists props,
    __init__ super_init obj = (list_to_map props ∪ base, inr tt) /\
    props.*1 ⊆ "Stats" :: declared_names /\
    Forall (fun name =>
              exists p, (list_to_map props : store) !! name = Some p /\
                prop_readOnly p = true /\ prop_locked p = true /\
                prop_hidden p = false /\
                (name <> "ResultType" -> prop_value p = default_value (prop_type p)))
           declared_names.
Proof.
  intros Hsuper HStats Hty Hlacks.
  destruct p0 as [ty ? ? ? ? ? ?]. simpl in Hty. subst ty.
  unfold lacks, declared_names in Hlacks. split_lacks Hlacks.
  rewrite <- (left_id_L ∅ (∪) base) in Hsuper.
  change (∅ : store) with (list_to_map [] : store) in Hsuper.
  eexists. split; [|split].
  - unfold __init__. rewrite (bind_inr _ _ _ _ _ Hsuper).
    repeat constructor_step.
  - apply (bool_decide_unpack _). vm_compute. exact I.
  - unfold declared_names.
    repeat (apply Forall_cons_2;
            [eexists; split; [vm_compute; reflexivity|by repeat split]|]).
    apply Forall_nil_2.
Qed.
End result_construction_store.

(** ** The restore hook *)

Section restore_hook.
Import ResultMechanical.
Implicit Types (obj : store) (p q : property).

(** X1.  [onDocumentRestored] touches three names only: every attribute
    other than [StressValues], [vonMises] and [Stats] is after the pass
    exactly what it was before, whether the pass returns or raises. *)
Theorem restore_frame obj name :
  name <> "StressValues" -> name <> "vonMises" -> name <> "Stats" ->
  exec onDocumentRestored obj !! name = obj !! name.
Proof.
  intros N1 N2 N3. unfold exec. rewrite onDocumentRestored_unfold.
  pose proof (rename_rule_frame obj name N1 N2) as Hr. unfold exec in Hr.
  destruct (rename_rule obj) as [o [e|[]]]; [exact Hr|]. simpl in Hr.
  rewrite <- Hr. by apply stats_rule_frame.
Qed.

Lemma restore_frame_witness :
  exec onDocumentRestored legacy_obj_time !! "Time" = legacy_obj_time !! "Time".
Proof. apply (restore_frame legacy_obj_time "Time"); discriminate. Defined.

(** X2.  The shape reduction is all or nothing.  After the pass [Stats] is
    either the very property it was, or it had a list of 39 entries and now
    has the same descriptor with the 26 entries left by dropping the middle
    one of every three; no partly reduced list is ever stored.  The pass
    does not create [Stats]. *)
Theorem restore_Stats_atomic obj :
  (forall p, obj !! "Stats" = Some p ->
     exec onDocumentRestored obj !! "Stats" = Some p \/
     exists l v, prop_value p = VList l /\ length l = 39%nat /\
       convert (prop_type p) (VList (drop_avg l)) = Some v /\
       exec onDocumentRestored obj !! "Stats" = Some (with_value p v)) /\
  (obj !! "Stats" = None -> exec onDocumentRestored obj !! "Stats" = None).
Proof.
  pose proof (rename_rule_frame obj "Stats") as Ho. unfold exec in Ho.
  assert (exists o, o !! "Stats" = obj !! "Stats" /\
            (exec onDocumentRestored obj = o \/
             exec onDocumentRestored obj = exec stats_rule o)) as (o & Ho' & Hexec).
  { unfold exec. rewrite onDocumentRestored_unfold.
    destruct (rename_rule obj) as [o [e|[]]]; exists o;
      (split; [by apply Ho|]); [by left|by right]. }
  clear Ho. rename Ho' into Ho.
  split.
  - intros p Hp. rewrite <- Ho in Hp.
    destruct Hexec as [->| ->]; [by left|]. unfold exec.
    destruct (stats_rule_cases o) as [(r & -> & _)|(p' & l & v & H & Hl & Hlen & Hc & ->)];
      [by left|].
    assert (p' = p) as -> by congruence.
    right. exists l, v. cbn [fst]. by rewrite lookup_insert_eq.
  - intros Hn. rewrite <- Ho in Hn.
    destruct Hexec as [->| ->]; [done|]. unfold exec.
    by rewrite (stats_rule_absent _ Hn).
Qed.

Lemma restore_Stats_atomic_witness :
  legacy_obj !! "Stats" = Some (stats_prop (VList (legacy_stats example_triples))) /\
  (exec onDocumentRestored legacy_obj !! "Stats"
     = Some (stats_prop (VList (legacy_stats example_triples))) \/
   exists l v,
     prop_value (stats_prop (VList (legacy_stats example_triples))) = VList l /\
     length l = 39%nat /\
     convert (prop_type (stats_prop (VList (legacy_stats example_triples))))
       (VList (drop_avg l)) = Some v /\
     exec onDocumentRestored legacy_obj !! "Stats"
       = Some (with_value (stats_prop (VList (legacy_stats example_triples))) v)).
Proof.
  assert (legacy_obj !! "Stats" = Some (stats_prop (VList (legacy_stats example_triples))))
    as H by (vm_compute; reflexivity).
  exact (conj H (proj1 (restore_Stats_atomic legacy_obj) _ H)).
Defined.

(** X3.  The pass loses no stress values and overwrites none.  If
    [StressValues] was present, then after the pass, returned or raised,
    it is either still there unchanged, or it is gone and [vonMises] holds
    its (type-checked) value.  A [vonMises] that was present before the
    pass is the same property after it. *)
Theorem restore_keeps_stress_values obj :
  (forall p, obj !! "StressValues" = Some p ->
     exec onDocumentRestored obj !! "StressValues" = Some p \/
     (exec onDocumentRestored obj !! "StressValues" = None /\
      exists v, convert PropertyFloatList (prop_value p) = Some v /\
        exec onDocumentRestored obj !! "vonMises" = Some (vonMises_prop v))) /\
  (forall q, obj !! "vonMises" = Some q ->
     exec onDocumentRestored obj !! "vonMises" = Some q).
Proof.
  assert (forall name, name <> "Stats" ->
            exec onDocumentRestored obj !! name = exec rename_rule obj !! name) as Hpass.
  { intros name N. unfold exec. rewrite onDocumentRestored_unfold.
    destruct (rename_rule obj) as [o [e|[]]]; [done|]. by apply stats_rule_frame. }
  rewrite !Hpass by done. unfold exec.
  destruct (rename_rule_cases obj)
    as [[H E]|[(H1 & [q' H2] & E)|[(p' & H & Hm & E)|(p' & v & H & Hm & Hc & E)]]];
    rewrite E; cbn [fst]; (split; [intros p Hp|intros q Hq]); try congruence; try by left.
  - left. by rewrite lookup_insert_ne.
  - right. assert (p' = p) as -> by congruence. unfold renamed.
    split; [apply lookup_delete_eq|]. exists v. split; [done|].
    by rewrite lookup_delete_ne, ?lookup_insert_eq.
Qed.

Lemma restore_keeps_stress_values_witness :
  legacy_obj !! "StressValues" = Some (stress_prop example_stress) /\
  both_obj !! "vonMises" = Some (vonMises_prop (VList [])) /\
  exec onDocumentRestored both_obj !! "vonMises" = Some (vonMises_prop (VList [])) /\
  (exec onDocumentRestored legacy_obj !! "StressValues" = Some (stress_prop example_stress) \/
   (exec onDocumentRestored legacy_obj !! "StressValues" = None /\
    exists v, convert PropertyFloatList (prop_value (stress_prop example_stress)) = Some v /\
      exec onDocumentRestored legacy_obj !! "vonMises" = Some (vonMises_prop v))).
Proof.
  assert (legacy_obj !! "StressValues" = Some (stress_prop example_stress)) as H
    by (vm_compute; reflexivity).
  assert (both_obj !! "vonMises" = Some (vonMises_prop (VList []))) as Hq
    by (vm_compute; reflexivity).
  split; [exact H|]. split; [exact Hq|].
  split; [exact (proj2 (restore_keeps_stress_values both_obj) _ Hq)|].
  exact (proj1 (restore_keeps_stress_values legacy_obj) _ H).
Defined.
(** The exceptions of the shape-reduction block, with their causes. *)
Lemma stats_rule_raises obj obj' e :
  stats_rule obj = (obj', inl e) ->
  obj' = obj /\
  ((e = UnknownAttributeError /\ obj !! "Stats" = None) \/
   (e = TypeError /\ exists p, obj !! "Stats" = Some p /\
      forall l, prop_value p <> VList l) \/
   (e = TypeMismatchError /\ exists p l, obj !! "Stats" = Some p /\
      prop_value p = VList l /\ length l = 39%nat /\
      convert (prop_type p) (VList (drop_avg l)) = None)).
Proof.
  intros Hrun.
  destruct (obj !! "Stats") as [p|] eqn:H.
  2:{ rewrite (stats_rule_absent _ H) in Hrun. simplify_eq. split; [done|by left]. }
  destruct (py_len (prop_value p)) as [e'|n] eqn:Hn.
  { rewrite (stats_rule_len_error _ _ _ H Hn) in Hrun. simplify_eq.
    split; [done|]. right. left.
    destruct (prop_value p) eqn:Hv; simpl in Hn; simplify_eq;
      (split; [done|]); exists p; by rewrite Hv. }
  destruct (decide (n = 39)) as [->|Hne].
  2:{ by rewrite (stats_rule_other _ _ _ H Hn Hne) in Hrun. }
  destruct (prop_value p) as [s| | | | |l] eqn:Hv; simpl in Hn; try done.
  - rewrite (stats_rule_str _ _ s H Hv) in Hrun by (injection Hn; lia). simplify_eq.
    split; [done|]. right. left. split; [done|]. exists p. by rewrite Hv.
  - assert (length l = 39%nat) as Hlen by (injection Hn; lia).
    rewrite (stats_rule_list _ _ _ H Hv Hlen) in Hrun.
    destruct (convert (prop_type p) (VList (drop_avg l))) as [v|] eqn:Hc.
    + by rewrite (setattr_ok _ _ _ _ _ H Hc) in Hrun.
    + rewrite (setattr_mismatch _ _ _ _ H Hc) in Hrun. simplify_eq.
      split; [done|]. right. right. split; [done|]. by exists p, l.
Qed.

(** X4.  The exceptions of [onDocumentRestored] and their causes.  The pass
    raises [DuplicateAttributeError] only where [StressValues] and
    [vonMises] are both present, [UnknownAttributeError] only where [Stats]
    is absent, [TypeError] only where [Stats] holds something that is not a
    list, and [TypeMismatchError] only where the stress values are not a
    list of numbers or the 39 entries of [Stats] do not fit its type.  It
    raises nothing else: in particular the thirteen deletions never run
    out of range. *)
Theorem restore_errors obj e :
  outcome onDocumentRestored obj = inl e ->
  (e = DuplicateAttributeError /\
     is_Some (obj !! "StressValues") /\ is_Some (obj !! "vonMises")) \/
  (e = UnknownAttributeError /\ obj !! "Stats" = None) \/
  (e = TypeError /\ exists p, obj !! "Stats" = Some p /\
     forall l, prop_value p <> VList l) \/
  (e = TypeMismatchError /\
     ((exists p, obj !! "StressValues" = Some p /\
         convert PropertyFloatList (prop_value p) = None) \/
      (exists p l, obj !! "Stats" = Some p /\ prop_value p = VList l /\
         length l = 39%nat /\ convert (prop_type p) (VList (drop_avg l)) = None))).
Proof.
  unfold outcome. rewrite onDocumentRestored_unfold.
  pose proof (rename_rule_frame obj "Stats") as Hf. unfold exec in Hf.
  destruct (rename_rule_cases obj)
    as [[H E]|[(H1 & H2 & E)|[(p & H & Hm & E)|(p & v & H & Hm & Hc & E)]]];
    rewrite E in Hf |- *; cbn [fst snd] in Hf |- *.
  2:{ intros [= <-]. by left. }
  2:{ intros [= <-]. right. right. right. split; [done|]. left. exists p.
      split; [done|].
      destruct (convert PropertyFloatList (prop_value p)) as [v|] eqn:Hc; [|done].
      by rewrite (rename_rule_ok _ _ _ H Hm Hc) in E. }
  all: destruct (stats_rule _) as [o' [e'|[]]] eqn:S; [|done];
    cbn [snd]; intros [= ->];
    destruct (stats_rule_raises _ _ _ S) as [_ Hcause];
    try rewrite Hf in Hcause by done;
    destruct Hcause as [?|[?|?]]; [by right; left|by right; right; left|];
    right; right; right; (split; [tauto|]); right; tauto.
Qed.

Lemma restore_errors_witness :
  outcome onDocumentRestored no_stats_obj = inl UnknownAttributeError /\
  no_stats_obj !! "Stats" = None.
Proof.
  assert (outcome onDocumentRestored no_stats_obj = inl UnknownAttributeError) as H
    by (vm_compute; reflexivity).
  split; [exact H|].
  destruct (restore_errors no_stats_obj _ H) as [[E _]|[[_ Hs]|[[E _]|[E _]]]];
    [discriminate E|exact Hs|discriminate E|discriminate E].
Defined.

(** X5.  On a well-formed object the pass returns normally.  If [Stats] is
    a float-list property holding floats, and [StressValues] is absent or
    holds floats while [vonMises] is not declared, then the pass raises
    nothing, [StressValues] is absent afterwards, and [Stats] holds the
    reduced list if it had 39 entries and the same list otherwise. *)
Theorem restore_completes obj p xs :
  obj !! "Stats" = Some p -> prop_type p = PropertyFloatList ->
  prop_value p = VList (VFloat <$> xs) ->
  (obj !! "StressValues" = None \/
   (obj !! "vonMises" = None /\
    exists q zs, obj !! "StressValues" = Some q /\ prop_value q = VList (VFloat <$> zs))) ->
  outcome onDocumentRestored obj = inr tt /\
  exec onDocumentRestored obj !! "StressValues" = None /\
  value_of "Stats" (exec onDocumentRestored obj)
    = Some (VList (VFloat <$> (if decide (length xs = 39%nat) then drop_avg xs else xs))).
Proof.
  intros H Hty Hv Hsv.
  assert (exists o, rename_rule obj = (o, inr tt) /\ o !! "Stats" = Some p /\
            o !! "StressValues" = None) as (o & R & Ho & Hos).
  { destruct Hsv as [Hs|(Hm & q & zs & Hs & Hq)].
    - exists obj. by rewrite (rename_rule_absent _ Hs).
    - exists (renamed obj (VList (VFloat <$> zs))).
      rewrite (rename_rule_ok obj q (VList (VFloat <$> zs)) Hs Hm)
        by (rewrite Hq; apply convert_float_list).
      rewrite renamed_lookup_Stats. split; [done|]. split; [done|].
      apply lookup_delete_eq. }
  unfold outcome, exec, value_of. rewrite onDocumentRestored_unfold, R.
  case_decide as Hlen.
  - rewrite (stats_rule_floats _ _ _ Ho Hty Hv Hlen). cbn [fst snd].
    split; [done|]. split; [by rewrite lookup_insert_ne|].
    by rewrite lookup_insert_eq.
  - rewrite (stats_rule_other o p (Z.of_nat (length xs))); cbn [fst snd].
    + rewrite Ho. simpl. by rewrite Hv.
    + done.
    + rewrite Hv. simpl. by rewrite length_fmap.
    + lia.
Qed.

Lemma restore_completes_witness :
  legacy_obj !! "Stats" = Some (stats_prop (VList (VFloat <$> example_floats))) /\
  legacy_obj !! "vonMises" = None /\
  outcome onDocumentRestored legacy_obj = inr tt /\
  exec onDocumentRestored legacy_obj !! "StressValues" = None.
Proof.
  assert (legacy_obj !! "Stats" = Some (stats_prop (VList (VFloat <$> example_floats))))
    as H by (vm_compute; reflexivity).
  assert (legacy_obj !! "vonMises" = None) as Hm by (vm_compute; reflexivity).
  assert (legacy_obj !! "StressValues" = Some (stress_prop example_stress)) as Hs
    by (vm_compute; reflexivity).
  destruct (restore_completes legacy_obj _ example_floats H eq_refl eq_refl
              (or_intror (conj Hm (ex_intro _ (stress_prop example_stress)
                 (ex_intro _ [1.5%float; 2.5%float] (conj Hs eq_refl))))))
    as (Hok & Hgone & _).
  exact (conj H (conj Hm (conj Hok Hgone))).
Defined.
End restore_hook.

(** ** The constructor of result objects *)

Lemma setattr_unknown name v (obj : store) :
  obj !! name = None -> setattr name v obj = (obj, inl UnknownAttributeError).
Proof. intros H. unfold setattr. by rewrite H. Qed.

(** One statement of a constructor whose base may hold the declared name
    already, on a goal about the outcome: either the declaration is
    refused, or the constructor goes on. *)
Ltac declare_or_refuse :=
  lazymatch goal with
  | |- snd (mbind _ (addLockedProperty _ ?n _ _ _ _) (list_to_map _ ∪ ?b)) = _ =>
      let Hn := fresh "Hfresh" in
      destruct (b !! n) eqn:Hn;
      [ erewrite bind_inl
          by (eapply declare_step_dup; [vm_compute; reflexivity|eassumption]);
        reflexivity
      | erewrite bind_inr
          by (apply declare_step; [vm_compute; reflexivity|assumption]) ]
  | |- snd (mbind _ (setattr _ _) _) = _ =>
      erewrite bind_inr
        by (first [ eapply write_step_declared; vm_compute; reflexivity
                  | eapply write_step_inherited;
                    [vm_compute; reflexivity|eassumption|vm_compute; reflexivity] ])
  end.

Section result_constructor.
Import ResultMechanical.

(** X6.  Every attribute [ResultMechanical.__init__] declares is read-only,
    locked and visible, and all but [ResultType] hold the default of their
    type; so on a constructed object the external [set] of any of the 36
    names is refused, whatever the value. *)
Theorem constructed_attributes_read_only super_init obj base p0 :
  super_init obj = (base, inr tt) ->
  base !! "Stats" = Some p0 -> prop_type p0 = PropertyFloatList ->
  lacks declared_names base ->
  Forall (fun name =>
            exists p, exec (__init__ super_init) obj !! name = Some p /\
              prop_readOnly p = true /\ prop_locked p = true /\ prop_hidden p = false /\
              (name <> "ResultType" -> prop_value p = default_value (prop_type p)) /\
              forall v, set name v (exec (__init__ super_init) obj)
                        = (exec (__init__ super_init) obj, inl ReadOnlyViolationError))
         declared_names.
Proof.
  intros Hsuper HStats Hty Hlacks.
  destruct (ResultMechanical_init_store _ _ _ _ Hsuper HStats Hty Hlacks)
    as (props & E & _ & Hall).
  unfold exec. rewrite E. cbn [fst].
  eapply Forall_impl; [exact Hall|]. cbv beta.
  intros name (p & Hp & Hro & Hlk & Hhid & Hdef).
  assert ((list_to_map props ∪ base) !! name = Some p) as Hp'
    by (by apply lookup_union_Some_l).
  exists p. repeat (split; [done|]). intros v. by apply set_readOnly with p.
Qed.

Lemma constructed_attributes_read_only_witness :
  lacks declared_names fresh_result_obj /\
  set "vonMises" (VList [VFloat 1.5]) (exec (__init__ (mret tt)) fresh_result_obj)
    = (exec (__init__ (mret tt)) fresh_result_obj, inl ReadOnlyViolationError).
Proof.
  assert (lacks declared_names fresh_result_obj) as Hlacks
    by (repeat (apply Forall_cons_2; [vm_compute; reflexivity|]); apply Forall_nil_2).
  assert (fresh_result_obj !! "Stats" = Some (stats_prop (VList []))) as HStats
    by (vm_compute; reflexivity).
  assert ((mret tt : M unit) fresh_result_obj = (fresh_result_obj, inr tt)) as Hsuper
    by reflexivity.
  split; [exact Hlacks|].
  pose proof (constructed_attributes_read_only (mret tt) fresh_result_obj
                fresh_result_obj _ Hsuper HStats eq_refl Hlacks) as Hall.
  apply (Forall_lookup_1 _ _ 13%nat "vonMises") in Hall; [|reflexivity].
  destruct Hall as (p & _ & _ & _ & _ & _ & Hset). exact (Hset _).
Defined.

(** X7.  [ResultMechanical.__init__] leaves what it does not name: an
    attribute of the base object other than [Stats] and the 36 declared
    names is unchanged, and [Stats] keeps its descriptor and gets the 26
    zeros as value. *)
Theorem construction_frame super_init obj base p0 :
  super_init obj = (base, inr tt) ->
  base !! "Stats" = Some p0 -> prop_type p0 = PropertyFloatList ->
  lacks declared_names base ->
  (forall name, name ∉ "Stats" :: declared_names ->
     exec (__init__ super_init) obj !! name = base !! name) /\
  exec (__init__ super_init) obj !! "Stats"
    = Some (with_value p0 (VList (repeat (VFloat 0) 26))).
Proof.
  intros Hsuper HStats Hty Hlacks.
  destruct (ResultMechanical_init_store _ _ _ _ Hsuper HStats Hty Hlacks)
    as (props & E & Hkeys & _).
  destruct (ResultMechanical_init_ok _ _ _ _ Hsuper HStats Hty Hlacks)
    as (obj' & E' & _ & HS & _).
  unfold exec. split.
  - intros name Hn. rewrite E. cbn [fst]. apply constructed_frame.
    intros Hin. apply Hn. by apply Hkeys.
  - by rewrite E'.
Qed.

Lemma construction_frame_witness :
  lacks declared_names (<["Time" := stats_prop (VList [])]> fresh_result_obj) /\
  exec (__init__ (mret tt)) (<["Time" := stats_prop (VList [])]> fresh_result_obj) !! "Time"
    = Some (stats_prop (VList [])).
Proof.
  assert (lacks declared_names (<["Time" := stats_prop (VList [])]> fresh_result_obj))
    as Hlacks
    by (repeat (apply Forall_cons_2; [vm_compute; reflexivity|]); apply Forall_nil_2).
  assert ((<["Time" := stats_prop (VList [])]> fresh_result_obj) !! "Stats"
          = Some (stats_prop (VList []))) as HStats by (vm_compute; reflexivity).
  assert ((mret tt : M unit) (<["Time" := stats_prop (VList [])]> fresh_result_obj)
          = (<["Time" := stats_prop (VList [])]> fresh_result_obj, inr tt)) as Hsuper
    by reflexivity.
  split; [exact Hlacks|].
  rewrite (proj1 (construction_frame (mret tt) _ _ _ Hsuper HStats eq_refl Hlacks) "Time").
  - apply lookup_insert_eq.
  - apply (bool_decide_unpack _). vm_compute. exact I.
Defined.

(** X8.  [ResultMechanical.__init__] cannot run on an object that has one
    of its names already: it raises [DuplicateAttributeError] at the first
    such declaration.  In particular a second construction of the same
    object is refused. *)
Theorem construction_refuses_declared_names super_init obj base :
  super_init obj = (base, inr tt) ->
  Exists (fun name => is_Some (base !! name)) declared_names ->
  outcome (__init__ super_init) obj = inl DuplicateAttributeError.
Proof.
  intros Hsuper HEx.
  assert (forall name, is_Some (base !! name) -> base !! name = None -> False) as Hno
    by (intros name [q Hq] Hn; congruence).
  rewrite <- (left_id_L ∅ (∪) base) in Hsuper.
  change (∅ : store) with (list_to_map [] : store) in Hsuper.
  unfold declared_names in HEx.
  unfold outcome, __init__. rewrite (bind_inr _ _ _ _ _ Hsuper).
  repeat declare_or_refuse.
  exfalso.
  repeat (apply Exists_cons in HEx as [HEx|HEx]; [apply (Hno _ HEx); assumption|]).
  by apply Exists_nil in HEx.
Qed.

Lemma construction_refuses_declared_names_witness :
  is_Some (exec (__init__ (mret tt)) fresh_result_obj !! "ResultType") /\
  outcome (__init__ (mret tt)) (exec (__init__ (mret tt)) fresh_result_obj)
    = inl DuplicateAttributeError.
Proof.
  assert (is_Some (exec (__init__ (mret tt)) fresh_result_obj !! "ResultType")) as H
    by (vm_compute; eexists; reflexivity).
  assert ((mret tt : M unit) (exec (__init__ (mret tt)) fresh_result_obj)
          = (exec (__init__ (mret tt)) fresh_result_obj, inr tt)) as Hsuper
    by reflexivity.
  split; [exact H|].
  apply (construction_refuses_declared_names (mret tt) _ _ Hsuper).
  apply Exists_cons_hd. exact H.
Defined.
End result_constructor.

(** ** Constructor and restore hook together *)

Section construction_and_restore.
Import ResultMechanical.

(** X9.  The restore hook declares [vonMises] as the constructor does.  On
    a legacy object (float [StressValues], no [vonMises]) the pass leaves
    [vonMises] with the descriptor that [__init__] gives it (type, group,
    documentation, read-only, locked) and the stress values as value. *)
Theorem migrated_vonMises_as_constructed super_init obj base p0 old p xs :
  super_init obj = (base, inr tt) ->
  base !! "Stats" = Some p0 -> prop_type p0 = PropertyFloatList ->
  lacks declared_names base ->
  old !! "StressValues" = Some p -> prop_value p = VList (VFloat <$> xs) ->
  old !! "vonMises" = None ->
  exists pc,
    exec (__init__ super_init) obj !! "vonMises" = Some pc /\
    exec onDocumentRestored old !! "vonMises"
      = Some (with_value pc (VList (VFloat <$> xs))).
Proof.
  intros Hsuper HStats Hty Hlacks Hs Hv Hm.
  destruct (ResultMechanical_init_ok _ _ _ _ Hsuper HStats Hty Hlacks)
    as (obj' & E & _ & _ & HvM & _).
  exists (vonMises_prop (VList [])). unfold exec at 1. rewrite E. split; [exact HvM|].
  assert (exec onDocumentRestored old !! "vonMises"
          = exec rename_rule old !! "vonMises") as ->.
  { unfold exec. rewrite onDocumentRestored_unfold.
    destruct (rename_rule old) as [o [e|[]]]; [done|]. by apply stats_rule_frame. }
  unfold exec. rewrite (rename_rule_ok old p (VList (VFloat <$> xs)) Hs Hm)
    by (rewrite Hv; apply convert_float_list).
  unfold renamed. cbn [fst]. by rewrite lookup_delete_ne, ?lookup_insert_eq.
Qed.

Lemma migrated_vonMises_as_constructed_witness :
  legacy_obj !! "StressValues" = Some (stress_prop example_stress) /\
  legacy_obj !! "vonMises" = None /\
  exists pc,
    exec (__init__ (mret tt)) fresh_result_obj !! "vonMises" = Some pc /\
    exec onDocumentRestored legacy_obj !! "vonMises"
      = Some (with_value pc (VList (VFloat <$> [1.5%float; 2.5%float]))).
Proof.
  assert (lacks declared_names fresh_result_obj) as Hlacks
    by (repeat (apply Forall_cons_2; [vm_compute; reflexivity|]); apply Forall_nil_2).
  assert (fresh_result_obj !! "Stats" = Some (stats_prop (VList []))) as HStats
    by (vm_compute; reflexivity).
  assert ((mret tt : M unit) fresh_result_obj = (fresh_result_obj, inr tt)) as Hsuper
    by reflexivity.
  assert (legacy_obj !! "StressValues" = Some (stress_prop example_stress)) as Hs
    by (vm_compute; reflexivity).
  assert (legacy_obj !! "vonMises" = None) as Hm by (vm_compute; reflexivity).
  split; [exact Hs|]. split; [exact Hm|].
  exact (migrated_vonMises_as_constructed (mret tt) fresh_result_obj fresh_result_obj _
           legacy_obj _ [1.5%float; 2.5%float] Hsuper HStats eq_refl Hlacks Hs eq_refl Hm).
Defined.

(** X10.  Restoring a freshly constructed object is a no-op.  If the base
    object has no [StressValues], then [onDocumentRestored] on the object
    that [__init__] has constructed returns normally and leaves the store
    as it is. *)
Theorem restore_after_construction super_init obj base p0 :
  super_init obj = (base, inr tt) ->
  base !! "Stats" = Some p0 -> prop_type p0 = PropertyFloatList ->
  lacks declared_names base -> base !! "StressValues" = None ->
  onDocumentRestored (exec (__init__ super_init) obj)
    = (exec (__init__ super_init) obj, inr tt).
Proof.
  intros Hsuper HStats Hty Hlacks Hb.
  destruct (ResultMechanical_init_ok _ _ _ _ Hsuper HStats Hty Hlacks)
    as (obj' & E & _ & HS & _ & HSV).
  unfold exec. rewrite E. cbn [fst].
  apply forward_safety_constructed with p0; [by rewrite HSV|done].
Qed.

Lemma restore_after_construction_witness :
  lacks declared_names fresh_result_obj /\
  fresh_result_obj !! "StressValues" = None /\
  onDocumentRestored (exec (__init__ (mret tt)) fresh_result_obj)
    = (exec (__init__ (mret tt)) fresh_result_obj, inr tt).
Proof.
  assert (lacks declared_names fresh_result_obj) as Hlacks
    by (repeat (apply Forall_cons_2; [vm_compute; reflexivity|]); apply Forall_nil_2).
  assert (fresh_result_obj !! "Stats" = Some (stats_prop (VList []))) as HStats
    by (vm_compute; reflexivity).
  assert ((mret tt : M unit) fresh_result_obj = (fresh_result_obj, inr tt)) as Hsuper
    by reflexivity.
  assert (fresh_result_obj !! "StressValues" = None) as Hb by (vm_compute; reflexivity).
  split; [exact Hlacks|]. split; [exact Hb|].
  exact (restore_after_construction (mret tt) fresh_result_obj fresh_result_obj _
           Hsuper HStats eq_refl Hlacks Hb).
Defined.
End construction_and_restore.

(** ** The constructor of the magnetodynamic equation *)

Section equation_constructor.
Import Proxy.

Lemma Proxy_init_store super_init obj base p0 :
  super_init obj = (base, inr tt) ->
  base !! "Priority" = Some p0 -> prop_type p0 = PropertyInteger ->
  lacks declared_names base ->
  exists props,
    __init__ super_init obj = (list_to_map props ∪ base, inr tt) /\
    props.*1 ⊆ "Priority" :: declared_names /\
    (list_to_map props : store) !! "Priority" = Some (with_value p0 (VInt 10)) /\
    value_of "IsHarmonic" (list_to_map props) = Some (VBool false) /\
    value_of "AngularFrequency" (list_to_map props) = Some (VFloat 0) /\
    Forall (fun name =>
              exists p, (list_to_map props : store) !! name = Some p /\
                prop_readOnly p = false /\ prop_locked p = true /\
                prop_hidden p = false /\
                (name <> "CalculateNodalFields" ->
                 prop_value p = default_value (prop_type p)))
           declared_names.
Proof.
  intros Hsuper HPriority Hty Hlacks.
  destruct p0 as [ty ? ? ? ? ? ?]. simpl in Hty. subst ty.
  unfold lacks, declared_names in Hlacks. split_lacks Hlacks.
  rewrite <- (left_id_L ∅ (∪) base) in Hsuper.
  change (∅ : store) with (list_to_map [] : store) in Hsuper.
  eexists. split; [|split; [|split; [|split; [|split]]]].
  - unfold __init__. rewrite (bind_inr _ _ _ _ _ Hsuper).
    repeat constructor_step.
  - apply (bool_decide_unpack _). vm_compute. exact I.
  - vm_compute. reflexivity.
  - vm_compute. reflexivity.
  - vm_compute. reflexivity.
  - unfold declared_names.
    repeat (apply Forall_cons_2;
            [eexists; split; [vm_compute; reflexivity|by repeat split]|]).
    apply Forall_nil_2.
Qed.

(** X11.  What [Proxy.__init__] leaves in the attributes it declares: the
    equation is not harmonic and its angular frequency is 0; none of the
    22 attributes is read-only, all are locked and visible; and every one
    of them except [CalculateNodalFields] holds the default of its type:
    the constructor turns no other option on. *)
Theorem magnetodynamic_defaults super_init obj base p0 :
  super_init obj = (base, inr tt) ->
  base !! "Priority" = Some p0 -> prop_type p0 = PropertyInteger ->
  lacks declared_names base ->
  value_of "IsHarmonic" (exec (__init__ super_init) obj) = Some (VBool false) /\
  value_of "AngularFrequency" (exec (__init__ super_init) obj) = Some (VFloat 0) /\
  Forall (fun name =>
            exists p, exec (__init__ super_init) obj !! name = Some p /\
              prop_readOnly p = false /\ prop_locked p = true /\ prop_hidden p = false /\
              (name <> "CalculateNodalFields" ->
               prop_value p = default_value (prop_type p)))
         declared_names.
Proof.
  intros Hsuper HPriority Hty Hlacks.
  destruct (Proxy_init_store _ _ _ _ Hsuper HPriority Hty Hlacks)
    as (props & E & _ & _ & HH & HA & Hall).
  unfold exec, value_of in *. rewrite E. cbn [fst].
  assert (forall name x, (list_to_map props : store) !! name = Some x ->
            (list_to_map props ∪ base) !! name = Some x) as Hl
    by (intros name x; apply lookup_union_Some_l).
  split; [|split].
  - destruct (list_to_map props !! "IsHarmonic") as [x|] eqn:Hx; [|done].
    by rewrite (Hl _ _ Hx).
  - destruct (list_to_map props !! "AngularFrequency") as [x|] eqn:Hx; [|done].
    by rewrite (Hl _ _ Hx).
  - eapply Forall_impl; [exact Hall|]. cbv beta.
    intros name (p & Hp & Hrest). exists p. split; [by apply Hl|exact Hrest].
Qed.

Lemma magnetodynamic_defaults_witness :
  lacks declared_names
    (<["Priority" := Property PropertyInteger "Base" "" false false true (VInt 0)]> ∅) /\
  value_of "IsHarmonic" (exec (__init__ example_equation_base) ∅) = Some (VBool false) /\
  value_of "AngularFrequency" (exec (__init__ example_equation_base) ∅) = Some (VFloat 0).
Proof.
  assert (lacks declared_names
            (<["Priority" := Property PropertyInteger "Base" "" false false true (VInt 0)]> ∅))
    as Hlacks
    by (repeat (apply Forall_cons_2; [vm_compute; reflexivity|]); apply Forall_nil_2).
  assert (example_equation_base ∅
          = (<["Priority" := Property PropertyInteger "Base" "" false false true (VInt 0)]> ∅,
             inr tt)) as Hsuper by reflexivity.
  destruct (magnetodynamic_defaults example_equation_base ∅ _ _
              Hsuper (lookup_insert_eq _ _ _) eq_refl Hlacks) as (HH & HA & _).
  exact (conj Hlacks (conj HH HA)).
Defined.

(** X12.  [Proxy.__init__] changes of the base object only the value of
    [Priority]: the descriptor of [Priority] is kept, and every attribute
    other than [Priority] and the 22 declared names is left as it was. *)
Theorem magnetodynamic_frame super_init obj base p0 :
  super_init obj = (base, inr tt) ->
  base !! "Priority" = Some p0 -> prop_type p0 = PropertyInteger ->
  lacks declared_names base ->
  exec (__init__ super_init) obj !! "Priority" = Some (with_value p0 (VInt 10)) /\
  (forall name, name ∉ "Priority" :: declared_names ->
     exec (__init__ super_init) obj !! name = base !! name).
Proof.
  intros Hsuper HPriority Hty Hlacks.
  destruct (Proxy_init_store _ _ _ _ Hsuper HPriority Hty Hlacks)
    as (props & E & Hkeys & HP & _).
  unfold exec. rewrite E. cbn [fst]. split.
  - by apply lookup_union_Some_l.
  - intros name Hn. apply constructed_frame. intros Hin. apply Hn. by apply Hkeys.
Qed.

Lemma magnetodynamic_frame_witness :
  lacks declared_names (example_equation "Magnetodynamic" 0) /\
  exec (__init__ (mret tt)) (example_equation "Magnetodynamic" 0) !! "Label"
    = example_equation "Magnetodynamic" 0 !! "Label" /\
  priority_of (exec (__init__ (mret tt)) (example_equation "Magnetodynamic" 0)) = 10.
Proof.
  assert (lacks declared_names (example_equation "Magnetodynamic" 0)) as Hlacks
    by (repeat (apply Forall_cons_2; [vm_compute; reflexivity|]); apply Forall_nil_2).
  assert ((mret tt : M unit) (example_equation "Magnetodynamic" 0)
          = (example_equation "Magnetodynamic" 0, inr tt)) as Hsuper by reflexivity.
  assert (example_equation "Magnetodynamic" 0 !! "Priority"
          = Some (Property PropertyInteger "Base" "" false false true (VInt 0))) as HP
    by (vm_compute; reflexivity).
  destruct (magnetodynamic_frame (mret tt) _ _ _ Hsuper HP eq_refl Hlacks) as (H1 & H2).
  split; [exact Hlacks|]. split.
  - apply H2. apply (bool_decide_unpack _). vm_compute. exact I.
  - unfold priority_of. by rewrite H1.
Defined.

(** X13.  [Proxy.__init__] needs the [Priority] of its base classes.  On an
    object without [Priority] it raises [UnknownAttributeError] at
    [obj.Priority = 10]: by then the eleven attributes of the groups
    [Magnetodynamic] and [Linear System] are declared, and none of the
    post processor options is. *)
Theorem magnetodynamic_needs_priority super_init obj base :
  super_init obj = (base, inr tt) ->
  base !! "Priority" = None -> lacks declared_names base ->
  outcome (__init__ super_init) obj = inl UnknownAttributeError /\
  Forall (fun name => is_Some (exec (__init__ super_init) obj !! name))
    (take 11 declared_names) /\
  Forall (fun name => exec (__init__ super_init) obj !! name = None) result_toggles.
Proof.
  intros Hsuper HPriority Hlacks.
  pose proof Hlacks as Hlacks'.
  unfold lacks, declared_names in Hlacks. split_lacks Hlacks.
  rewrite <- (left_id_L ∅ (∪) base) in Hsuper.
  change (∅ : store) with (list_to_map [] : store) in Hsuper.
  assert (exists props,
            __init__ super_init obj = (list_to_map props ∪ base, inl UnknownAttributeError) /\
            Forall (fun name => is_Some ((list_to_map props : store) !! name))
              (take 11 declared_names) /\
            Forall (fun name => (list_to_map props : store) !! name = None) result_toggles)
    as (props & E & Hdecl & Htog).
  { eexists. split; [|split].
    - unfold __init__. rewrite (bind_inr _ _ _ _ _ Hsuper).
      do 13 constructor_step.
      erewrite bind_inl; [reflexivity|].
      apply setattr_unknown. apply lookup_union_None. split; [vm_compute; reflexivity|done].
    - repeat (apply Forall_cons_2; [vm_compute; eexists; reflexivity|]). apply Forall_nil_2.
    - repeat (apply Forall_cons_2; [vm_compute; reflexivity|]). apply Forall_nil_2. }
  unfold outcome, exec. rewrite E. cbn [fst snd]. split; [done|]. split.
  - eapply Forall_impl; [exact Hdecl|]. cbv beta. intros name [x Hx].
    exists x. by apply lookup_union_Some_l.
  - apply Forall_forall. intros name Hin. apply lookup_union_None. split.
    + by eapply (proj1 (Forall_forall _ _) Htog).
    + apply (proj1 (Forall_forall _ _) Hlacks').
      assert (result_toggles ⊆ declared_names) as Hsub
        by (apply (bool_decide_unpack _); vm_compute; exact I).
      by apply Hsub.
Qed.

Lemma magnetodynamic_needs_priority_witness :
  (∅ : store) !! "Priority" = None /\ lacks declared_names ∅ /\
  outcome (__init__ (mret tt)) ∅ = inl UnknownAttributeError.
Proof.
  assert (lacks declared_names ∅) as Hlacks
    by (repeat (apply Forall_cons_2; [vm_compute; reflexivity|]); apply Forall_nil_2).
  assert ((mret tt : M unit) ∅ = (∅, inr tt)) as Hsuper by reflexivity.
  split; [reflexivity|]. split; [exact Hlacks|].
  exact (proj1 (magnetodynamic_needs_priority (mret tt) ∅ ∅ Hsuper eq_refl Hlacks)).
Defined.
End equation_constructor.

(** ** The constructor of the initial flow velocity constraint *)

Section flow_velocity_constructor.
Import ConstraintInitialFlowVelocity.
Variable PropertyVelocity : semanticType.

Lemma ConstraintInitialFlowVelocity_init_store super_init obj base :
  super_init obj = (base, inr tt) -> lacks declared_names base ->
  exists props,
    __init__ PropertyVelocity super_init obj = (list_to_map props ∪ base, inr tt) /\
    props.*1 ⊆ declared_names /\
    Forall (fun name => value_of name (list_to_map props) = Some (VBool true))
      ["VelocityXUnspecified"; "VelocityYUnspecified"; "VelocityZUnspecified"] /\
    Forall (fun name =>
              exists p, (list_to_map props : store) !! name = Some p /\
                prop_type p = PropertyVelocity /\
                prop_value p = default_value PropertyVelocity)
      ["VelocityX"; "VelocityY"; "VelocityZ"] /\
    Forall (fun name =>
              exists p, (list_to_map props : store) !! name = Some p /\
                prop_group p = "Parameter" /\ prop_readOnly p = false /\
                prop_locked p = true /\ prop_hidden p = false /\
                (name ∉ ["VelocityXUnspecified"; "VelocityYUnspecified";
                         "VelocityZUnspecified"] ->
                 prop_value p = default_value (prop_type p)))
      declared_names.
Proof.
  intros Hsuper Hlacks.
  unfold lacks, declared_names in Hlacks. split_lacks Hlacks.
  rewrite <- (left_id_L ∅ (∪) base) in Hsuper.
  change (∅ : store) with (list_to_map [] : store) in Hsuper.
  eexists. split; [|split; [|split; [|split]]].
  - unfold __init__. rewrite (bind_inr _ _ _ _ _ Hsuper).
    repeat constructor_step.
    apply declare_step; [vm_compute; reflexivity|assumption].
  - apply (bool_decide_unpack _). vm_compute. exact I.
  - repeat (apply Forall_cons_2; [vm_compute; reflexivity|]). apply Forall_nil_2.
  - repeat (apply Forall_cons_2;
            [eexists; split; [vm_compute; reflexivity|by split]|]).
    apply Forall_nil_2.
  - unfold declared_names.
    repeat (apply Forall_cons_2;
            [eexists; split; [vm_compute; reflexivity|]; cbn;
             repeat (split; [reflexivity|]);
             first [ intros _; reflexivity
                   | intros Hn; exfalso; apply Hn;
                     apply (bool_decide_unpack _); vm_compute; exact I ]|]).
    apply Forall_nil_2.
Qed.

(** X14.  [ConstraintInitialFlowVelocity.__init__] on an object that has
    none of its twelve names returns normally.  Afterwards the velocity is
    unspecified in all three directions (the three [Unspecified] flags hold
    [True]); the three velocities have the velocity type; every declared
    attribute is in group [Parameter], writable, locked and visible, and
    all but the three flags hold the default of their type; and no other
    attribute of the object has changed. *)
Theorem flow_velocity_defaults super_init obj base :
  super_init obj = (base, inr tt) -> lacks declared_names base ->
  outcome (__init__ PropertyVelocity super_init) obj = inr tt /\
  Forall (fun name =>
            value_of name (exec (__init__ PropertyVelocity super_init) obj)
            = Some (VBool true))
    ["VelocityXUnspecified"; "VelocityYUnspecified"; "VelocityZUnspecified"] /\
  Forall (fun name =>
            exists p, exec (__init__ PropertyVelocity super_init) obj !! name = Some p /\
              prop_type p = PropertyVelocity /\
              prop_value p = default_value PropertyVelocity)
    ["VelocityX"; "VelocityY"; "VelocityZ"] /\
  Forall (fun name =>
            exists p, exec (__init__ PropertyVelocity super_init) obj !! name = Some p /\
              prop_group p = "Parameter" /\ prop_readOnly p = false /\
              prop_locked p = true /\ prop_hidden p = false /\
              (name ∉ ["VelocityXUnspecified"; "VelocityYUnspecified";
                       "VelocityZUnspecified"] ->
               prop_value p = default_value (prop_type p)))
    declared_names /\
  (forall name, name ∉ declared_names ->
     exec (__init__ PropertyVelocity super_init) obj !! name = base !! name).
Proof.
  intros Hsuper Hlacks.
  destruct (ConstraintInitialFlowVelocity_init_store _ _ _ Hsuper Hlacks)
    as (props & E & Hkeys & Hflags & Hvel & Hall).
  unfold outcome, exec. rewrite E. cbn [fst snd].
  assert (forall name x, (list_to_map props : store) !! name = Some x ->
            (list_to_map props ∪ base) !! name = Some x) as Hl
    by (intros name x; apply lookup_union_Some_l).
  split; [done|]. split; [|split; [|split]].
  - eapply Forall_impl; [exact Hflags|]. cbv beta. unfold value_of. intros name Hv.
    destruct (list_to_map props !! name) as [x|] eqn:Hx; [|done].
    by rewrite (Hl _ _ Hx).
  - eapply Forall_impl; [exact Hvel|]. cbv beta.
    intros name (p & Hp & Hrest). exists p. split; [by apply Hl|exact Hrest].
  - eapply Forall_impl; [exact Hall|]. cbv beta.
    intros name (p & Hp & Hrest). exists p. split; [by apply Hl|exact Hrest].
  - intros name Hn. apply constructed_frame. intros Hin. apply Hn. by apply Hkeys.
Qed.

(** X15.  [ConstraintInitialFlowVelocity.__init__] cannot run on an object
    that has one of its names already: it raises
    [DuplicateAttributeError]. *)
Theorem flow_velocity_refuses_declared_names super_init obj base :
  super_init obj = (base, inr tt) ->
  Exists (fun name => is_Some (base !! name)) declared_names ->
  outcome (__init__ PropertyVelocity super_init) obj = inl DuplicateAttributeError.
Proof.
  intros Hsuper HEx.
  assert (forall name, is_Some (base !! name) -> base !! name = None -> False) as Hno
    by (intros name [q Hq] Hn; congruence).
  rewrite <- (left_id_L ∅ (∪) base) in Hsuper.
  change (∅ : store) with (list_to_map [] : store) in Hsuper.
  unfold declared_names in HEx.
  unfold outcome, __init__. rewrite (bind_inr _ _ _ _ _ Hsuper).
  repeat declare_or_refuse.
  lazymatch goal with
  | |- snd (addLockedProperty _ ?n _ _ _ _ (list_to_map _ ∪ ?b)) = _ =>
      destruct (b !! n) eqn:Hlast;
      [ erewrite declare_step_dup; [reflexivity|vm_compute; reflexivity|eassumption]| ]
  end.
  exfalso.
  repeat (apply Exists_cons in HEx as [HEx|HEx]; [apply (Hno _ HEx); assumption|]).
  by apply Exists_nil in HEx.
Qed.
End flow_velocity_constructor.

Lemma flow_velocity_defaults_witness :
  lacks ConstraintInitialFlowVelocity.declared_names ∅ /\
  outcome (ConstraintInitialFlowVelocity.__init__ PropertyFloat (mret tt)) ∅ = inr tt /\
  value_of "VelocityXUnspecified"
    (exec (ConstraintInitialFlowVelocity.__init__ PropertyFloat (mret tt)) ∅)
    = Some (VBool true).
Proof.
  assert (lacks ConstraintInitialFlowVelocity.declared_names ∅) as Hlacks
    by (repeat (apply Forall_cons_2; [vm_compute; reflexivity|]); apply Forall_nil_2).
  assert ((mret tt : M unit) ∅ = (∅, inr tt)) as Hsuper by reflexivity.
  destruct (flow_velocity_defaults PropertyFloat (mret tt) ∅ ∅ Hsuper Hlacks)
    as (Hok & Hflags & _).
  split; [exact Hlacks|]. split; [exact Hok|].
  exact (Forall_lookup_1 _ _ 0%nat "VelocityXUnspecified" Hflags eq_refl).
Defined.

Lemma flow_velocity_refuses_declared_names_witness :
  is_Some (exec (ConstraintInitialFlowVelocity.__init__ PropertyFloat (mret tt)) ∅
             !! "VelocityZ") /\
  outcome (ConstraintInitialFlowVelocity.__init__ PropertyFloat (mret tt))
    (exec (ConstraintInitialFlowVelocity.__init__ PropertyFloat (mret tt)) ∅)
    = inl DuplicateAttributeError.
Proof.
  assert (is_Some (exec (ConstraintInitialFlowVelocity.__init__ PropertyFloat (mret tt)) ∅
                     !! "VelocityZ")) as H
    by (vm_compute; eexists; reflexivity).
  assert ((mret tt : M unit)
            (exec (ConstraintInitialFlowVelocity.__init__ PropertyFloat (mret tt)) ∅)
          = (exec (ConstraintInitialFlowVelocity.__init__ PropertyFloat (mret tt)) ∅,
             inr tt)) as Hsuper by reflexivity.
  split; [exact H|].
  apply (flow_velocity_refuses_declared_names PropertyFloat (mret tt) _ _ Hsuper).
  do 8 apply Exists_cons_tl. apply Exists_cons_hd. exact H.
Defined.
